(** * JavaToolInstallerV0: the JDK installation orchestrator

    A shallow embedding of the task's entry file (javatoolinstaller.ts):
    the archive classifier [getSupportedFileEnding], the directory-diff
    detection used by [getVolumePath] and [installPkg], the disk-image
    flow of [installJDK], and the top-level [getJava] / [run].

    The TypeScript code is effectful (file system, child processes, task
    variables, console).  It is embedded in a state-and-exception monad
    over an abstract host; every collaborator the file imports is a field
    of the host record, so the theorems hold for all their behaviours. *)

From stdpp Require Import gmap strings list.
From Stdlib Require Import ZArith Ascii String.

(** ** JavaScript strings *)

Module Js.

(** [String.prototype.endsWith(searchString)]: the last
    [searchString.length] code units of [s] are compared with
    [searchString]; a longer search string never matches. *)
Definition endsWith (s searchString : string) : bool :=
  let len := String.length s in
  let n := String.length searchString in
  if Nat.leb n len then String.eqb (substring (len - n) n s) searchString
  else false.

(** [s.split(/[...]/)] for a character-class separator: the pieces between
    separators, in order; the empty string splits to one empty piece. *)
Fixpoint split_by (sep : ascii → bool) (s : string) : list string :=
  match s with
  | EmptyString => [EmptyString]
  | String c rest =>
      if sep c then EmptyString :: split_by sep rest
      else match split_by sep rest with
           | [] => [String c EmptyString]
           | piece :: pieces => String c piece :: pieces
           end
  end.

(** [Array.prototype.pop] on a fresh array, as an expression: its last
    element, [undefined] on the empty array. *)
Definition pop (l : list string) : option string := last l.

(** A template literal or [loc] argument renders [undefined] by name. *)
Definition show (v : option string) : string := default "undefined" v.

(** The character of code 34 and a fragment of a template literal that
    puts [s] between two of them. *)
Definition doubleQuote : string := String (ascii_of_nat 34) EmptyString.

Definition quoted (s : string) : string := doubleQuote +:+ s +:+ doubleQuote.

(** Truthiness of a string: every string but the empty one. *)
Definition truthy (s : string) : bool := negb (String.eqb s "").

(** [String.prototype.toUpperCase] on the ASCII letters. *)
Definition upper (c : ascii) : ascii :=
  let n := nat_of_ascii c in
  if Nat.leb 97 n && Nat.leb n 122 then ascii_of_nat (n - 32) else c.

Fixpoint toUpperCase (s : string) : string :=
  match s with
  | EmptyString => EmptyString
  | String c rest => String (upper c) (toUpperCase rest)
  end.

End Js.

(** ** Node's [path.join] on POSIX hosts

    The disk-image and package flows run on macOS only, where [path] is
    [path.posix]: arguments are glued with [/] and the result is
    normalised segment by segment. *)

Module Path.

Definition is_slash (c : ascii) : bool := Ascii.eqb c "/".

(** One path segment pushed on [res], the normalised segments so far, most
    recent first.  Empty and [.] segments vanish; [..] removes the last
    segment, is kept above a relative root, and is dropped at [/]. *)
Definition normalize_step (allowAboveRoot : bool)
    (res : list string) (seg : string) : list string :=
  if String.eqb seg "" || String.eqb seg "." then res
  else if String.eqb seg ".." then
    match res with
    | top :: rest =>
        if String.eqb top ".."
        then (if allowAboveRoot then ".." :: res else res)
        else rest
    | [] => if allowAboveRoot then [".."] else []
    end
  else seg :: res.

Definition normalizeString (p : string) (allowAboveRoot : bool) : string :=
  String.concat "/"
    (rev (fold_left (normalize_step allowAboveRoot)
            (Js.split_by is_slash p) [])).

Definition normalize (p : string) : string :=
  if String.eqb p "" then "."
  else
    let isAbsolute := String.prefix "/" p in
    let trailingSeparator := Js.endsWith p "/" in
    let body := normalizeString p (negb isAbsolute) in
    if String.eqb body "" then
      (if isAbsolute then "/" else if trailingSeparator then "./" else ".")
    else
      (if isAbsolute then "/" else "") +:+ body +:+
      (if trailingSeparator then "/" else "").

(** [path.join(...args)]: zero-length arguments are skipped, the rest are
    glued with [/] and the result is normalised. *)
Definition join (args : list string) : string :=
  match filter (λ a, a ≠ "") args with
  | [] => "."
  | parts => normalize (String.concat "/" parts)
  end.

(** A directory entry as [readdirSync] lists it: not empty, not [.] or
    [..], and free of separators. *)
Definition plainName (name : string) : bool :=
  negb (String.eqb name "") && negb (String.eqb name ".")
  && negb (String.eqb name "..")
  && forallb (λ c, negb (is_slash c)) (list_ascii_of_string name).

End Path.

(** ** Directory snapshots and their difference *)

(** [new Set(fs.readdirSync(dir))]. *)
Definition snapshot (entries : list string) : gset string :=
  list_to_set entries.

(** [entries.filter(name => !before.has(name))]. *)
Definition newEntries (before : gset string) (after : list string)
  : list string :=
  filter (λ name, name ∉ before) after.

(** The two steps together, as [getVolumePath] and [installPkg] use them. *)
Definition dirDiff (before after : list string) : list string :=
  newEntries (snapshot before) after.

(** ** Constants of the task *)

Definition supportedFileEndings : list string :=
  [".tar"; ".tar.gz"; ".zip"; ".7z"; ".dmg"; ".pkg"].
Definition VOLUMES_FOLDER : string := "/Volumes".
Definition JDK_FOLDER : string := "/Library/Java/JavaVirtualMachines".
Definition JDK_HOME_FOLDER : string := "Contents/Home".

Definition extendedJavaHomeName (versionSpec arch : string) : string :=
  "JAVA_HOME_" +:+ versionSpec +:+ "_" +:+ arch.

(** ** Errors, results and the observable trace *)

(** How a child process started by [ToolRunner.exec] ended. *)
Inductive ExecOutcome :=
| Exited (code : Z)
| SpawnFailed.

(** A [ToolRunner]: the program and the argument lines given to it with
    [.line(...)], each kept as written. *)
Record ToolRunner := { toolPath : string; args : list string }.

(** The exceptions that travel through the task. *)
Inductive Error :=
| LocError (key : string) (params : list string)
| PlainError (message : string)
| InputRequired (name : string)
| ExecError (tool : ToolRunner) (outcome : ExecOutcome)
| FsError (path : string)
| TypeError (what : string)
| CollaboratorError (message : string).

Inductive Outcome (T : Type) :=
| Returned (value : T)
| Thrown (error : Error).
Arguments Returned {T} value.
Arguments Thrown {T} error.

Inductive TaskResult :=
| Succeeded
| Failed (error : Error).

(** What the task does to the outside, most recent event first. *)
Inductive Event :=
| Console (key : string) (params : list string)
| Debug (message : string)
| LogError (error : Error)
| Exec (tool : ToolRunner)
| RmRF (path : string)
| Download (destination pattern : string)
| Sleep (milliseconds : N)
| Unzip (source extension destination : string)
| SetVariable (name : string) (value : option string)
| PrependPath (directory : string)
| SetResult (result : TaskResult).

(** ** The build agent: everything the file imports *)

Record Agent := {
  OS : Type;
  (** [os.platform()] *)
  platform : string;
  (** the task inputs read by [taskLib.getInput] *)
  inputs : gmap string string;
  (** [fs.readdirSync]; [None] when it throws *)
  readdir : string → OS → option (list string);
  (** [fs.existsSync] and [taskLib.exist] *)
  pathExists : string → OS → bool;
  (** [taskLib.which] *)
  which : string → OS → string;
  (** the child process behind [ToolRunner.exec] *)
  spawn : ToolRunner → OS → ExecOutcome * OS;
  (** [taskLib.rmRF] *)
  rmRF_effect : string → OS → Outcome unit * OS;
  (** [toolLib.findLocalToolVersions] and [toolLib.evaluateVersions] *)
  localToolVersions : string → OS → list string;
  evaluateVersions : list string → string → string;
  (** [AzureStorageArtifactDownloader.downloadArtifacts], by endpoint,
      account and container *)
  download_effect :
    string → string → string → string → string → OS → Outcome unit * OS;
  (** [JavaFilesExtractor.unzipJavaDownload] and its [BIN_FOLDER] *)
  unzip_effect : string → string → string → OS → Outcome string * OS;
  BIN_FOLDER : string;
}.

Record State (A : Agent) := {
  os : OS A;
  vars : gmap string string;
  trace : list Event;
}.
Arguments os {A} _.
Arguments vars {A} _.
Arguments trace {A} _.

(** The commands executed so far, most recent first. *)
Fixpoint execs (t : list Event) : list ToolRunner :=
  match t with
  | [] => []
  | Exec tool :: rest => tool :: execs rest
  | _ :: rest => execs rest
  end.

(** The [setVariable] calls made so far, most recent first. *)
Fixpoint assignments (t : list Event) : list (string * option string) :=
  match t with
  | [] => []
  | SetVariable name value :: rest => (name, value) :: assignments rest
  | _ :: rest => assignments rest
  end.

(** ** The monad of the task *)

Definition M (A : Agent) (T : Type) : Type := State A → Outcome T * State A.

Section Monad.
Context {A : Agent}.
Implicit Types s : State A.

Definition ret {T} (x : T) : M A T := λ s, (Returned x, s).

Definition throw {T} (e : Error) : M A T := λ s, (Thrown e, s).

Definition bind {T U} (m : M A T) (k : T → M A U) : M A U :=
  λ s, match m s with
       | (Returned x, s') => k x s'
       | (Thrown e, s') => (Thrown e, s')
       end.

(** [try { m } catch (error) { handler(error) }] *)
Definition try_catch {T} (m : M A T) (handler : Error → M A T) : M A T :=
  λ s, match m s with
       | (Returned x, s') => (Returned x, s')
       | (Thrown e, s') => handler e s'
       end.

Definition emit (e : Event) : M A unit :=
  λ s, (Returned tt, {| os := os s; vars := vars s; trace := e :: trace s |}).

(** A collaborator acting on the operating system. *)
Definition effect {T} (e : Event) (f : OS A → Outcome T * OS A) : M A T :=
  λ s, let '(r, o) := f (os s) in
       (r, {| os := o; vars := vars s; trace := e :: trace s |}).

Definition observe {T} (f : OS A → T) : M A T := λ s, (Returned (f (os s)), s).

End Monad.

Notation "x <- m ;; k" := (bind m (λ x, k))
  (at level 100, m at next level, right associativity).
Notation "m ;;; k" := (bind m (λ _, k))
  (at level 100, right associativity).

(** ** The task library, as the file uses it *)

Section TaskLib.
Context {A : Agent}.

(** [taskLib.getInput(name, true)]: a missing or empty input throws. *)
Definition getInputRequired (name : string) : M A string :=
  match inputs A !! name with
  | Some v => if Js.truthy v then ret v else throw (InputRequired name)
  | None => throw (InputRequired name)
  end.

(** [taskLib.getInput(name, false)]. *)
Definition getInputOptional (name : string) : M A (option string) :=
  ret (inputs A !! name).

(** [taskLib.getBoolInput(name, false)]. *)
Definition getBoolInput (name : string) : M A bool :=
  v <- getInputOptional name ;;
  ret (String.eqb (Js.toUpperCase (default "" v)) "TRUE").

Definition console_log (key : string) (params : list string) : M A unit :=
  emit (Console key params).

Definition debug (message : string) : M A unit := emit (Debug message).

Definition task_error (e : Error) : M A unit := emit (LogError e).

Definition setResult (r : TaskResult) : M A unit := emit (SetResult r).

Definition readdirSync (dir : string) : M A (list string) :=
  λ s, match readdir A dir (os s) with
       | Some entries => (Returned entries, s)
       | None => (Thrown (FsError dir), s)
       end.

Definition existsSync (p : string) : M A bool := observe (pathExists A p).

Definition getVariable (name : string) : M A (option string) :=
  λ s, (Returned (vars s !! name), s).

(** [taskLib.setVariable(name, val)] stores [val || '']. *)
Definition setVariable (name : string) (val : option string) : M A unit :=
  λ s, (Returned tt,
        {| os := os s;
           vars := <[name := default "" val]> (vars s);
           trace := SetVariable name val :: trace s |}).

Definition prependPath (dir : string) : M A unit := emit (PrependPath dir).

Definition rmRF (p : string) : M A unit := effect (RmRF p) (rmRF_effect A p).

(** [path.join] on values that may be [undefined]: Node checks each
    argument and throws a [TypeError] on one that is not a string. *)
Definition pathJoin (parts : list (option string)) : M A string :=
  match mapM id parts with
  | Some strings => ret (Path.join strings)
  | None => throw (TypeError "path")
  end.

Definition tool (name : string) : ToolRunner := {| toolPath := name; args := [] |}.

(** [runner.line(val)]: an empty line adds nothing. *)
Definition line (val : string) (runner : ToolRunner) : ToolRunner :=
  if Js.truthy val
  then {| toolPath := toolPath runner; args := args runner ++ [val] |}
  else runner.

(** [runner.exec()]: the promise rejects when the process cannot be
    started and when it exits with a code other than zero. *)
Definition exec (runner : ToolRunner) : M A Z :=
  λ s, let '(outcome, o) := spawn A runner (os s) in
       let s' := {| os := o; vars := vars s; trace := Exec runner :: trace s |} in
       match outcome with
       | Exited 0 => (Returned 0%Z, s')
       | _ => (Thrown (ExecError runner outcome), s')
       end.

End TaskLib.

(** ** The functions of the file *)

Section Installer.
Context {A : Agent}.

(** [array.forEach(item => body(item))] *)
Fixpoint forEach (items : list string) (body : string → M A unit) : M A unit :=
  match items with
  | [] => ret tt
  | item :: rest => body item ;;; forEach rest body
  end.

(** [buildFilePath] (lines 95-100): the last piece of the name after
    splitting at [\] and [/], joined to the root. *)
Definition buildFilePath (localPathRoot fileEnding fileNameAndPath : string)
  : M A string :=
  let fileName :=
    Js.pop (Js.split_by (λ c, Ascii.eqb c "\" || Ascii.eqb c "/")%bool
              fileNameAndPath) in
  pathJoin [Some localPathRoot; fileName].

(** [getSupportedFileEnding] (lines 106-114): [Array.prototype.find] with
    [endsWith], then the truthiness test of the result. *)
Definition getSupportedFileEnding (file : string) : M A string :=
  match List.find (λ ending, Js.endsWith file ending) supportedFileEndings with
  | Some fileEnding =>
      if Js.truthy fileEnding then ret fileEnding
      else throw (LocError "UnsupportedFileExtension" [])
  | None => throw (LocError "UnsupportedFileExtension" [])
  end.

(** [sudo] (lines 219-226). *)
Definition sudo (toolName : string) : M A ToolRunner :=
  if String.eqb (platform A) "win32" then ret (tool toolName)
  else
    toolPath <- observe (which A toolName) ;;
    ret (line toolPath (tool "sudo")).

(** [attach] (lines 232-237). *)
Definition attach (sourceFile : string) : M A unit :=
  console_log "AttachDiskImage" [] ;;;
  hdiutil <- sudo "hdiutil" ;;
  let hdiutil := line ("attach " +:+ Js.quoted sourceFile) hdiutil in
  exec hdiutil ;;;
  ret tt.

(** [runPkgInstaller] (lines 244-252): the [try] block holds the whole
    body, the [catch] block only writes to the debug log. *)
Definition runPkgInstaller (pkgPath : string) : M A unit :=
  try_catch
    (installer <- sudo "installer" ;;
     let installer :=
       line ("-package " +:+ Js.quoted pkgPath +:+ " -target /") installer in
     exec installer ;;;
     ret tt)
    (λ error, debug "Failed to install pkg file").

(** [detach] (lines 258-263). *)
Definition detach (volumePath : string) : M A unit :=
  console_log "DetachDiskImage" [] ;;;
  hdiutil <- sudo "hdiutil" ;;
  let hdiutil := line ("detach " +:+ Js.quoted volumePath) hdiutil in
  exec hdiutil ;;;
  ret tt.

(** [getVolumePath] (lines 157-164). *)
Definition getVolumePath (volumes : gset string) : M A string :=
  entries <- readdirSync VOLUMES_FOLDER ;;
  let newVolumes := newEntries volumes entries in
  if negb (Nat.eqb (List.length newVolumes) 1)
  then throw (LocError "UnsupportedDMGStructure" [])
  else pathJoin [Some VOLUMES_FOLDER; newVolumes !! 0%nat].

(** [getPackagePath] (lines 171-181). *)
Definition getPackagePath (volumePath : string) : M A string :=
  entries <- readdirSync volumePath ;;
  let packages := filter (λ file, Js.endsWith file ".pkg" = true) entries in
  if Nat.eqb (List.length packages) 1
  then pathJoin [Some volumePath; packages !! 0%nat]
  else if Nat.eqb (List.length packages) 0
  then throw (LocError "NoPKGFile" [])
  else throw (LocError "SeveralPKGFiles" []).

(** [installPkg] (lines 183-213): two branches on the number of new
    entries, none and otherwise. *)
Definition installPkg (pkgPath extendedJavaHome versionSpec : string)
  : M A string :=
  found <- existsSync pkgPath ;;
  if negb found then throw (PlainError "PkgPathDoesNotExist")
  else
    console_log "InstallJDK" [] ;;;
    before <- readdirSync JDK_FOLDER ;;
    let JDKs := snapshot before in
    runPkgInstaller pkgPath ;;;
    after <- readdirSync JDK_FOLDER ;;
    let newJDKs := newEntries JDKs after in
    if Nat.eqb (List.length newJDKs) 0 then
      preInstalledJavaDirectory <- getVariable extendedJavaHome ;;
      match preInstalledJavaDirectory with
      | None => throw (LocError "JavaNotPreinstalled" [versionSpec])
      | Some directory =>
          console_log "PreInstalledJavaUpgraded" [] ;;;
          console_log "UsePreinstalledJava" [directory] ;;;
          ret directory
      end
    else
      console_log "JavaSuccessfullyInstalled" [] ;;;
      pathJoin [Some JDK_FOLDER; newJDKs !! 0%nat; Some JDK_HOME_FOLDER].

Definition unzipJavaDownload (sourceFile fileExtension destination : string)
  : M A string :=
  effect (Unzip sourceFile fileExtension destination)
         (unzip_effect A sourceFile fileExtension destination).

(** [installJDK] (lines 122-150). *)
Definition installJDK
    (sourceFile fileExtension archiveExtractLocation
     extendedJavaHome versionSpec : string) : M A string :=
  if String.eqb fileExtension ".dmg" && String.eqb (platform A) "darwin" then
    before <- readdirSync VOLUMES_FOLDER ;;
    let volumes := snapshot before in
    attach sourceFile ;;;
    volumePath <- getVolumePath volumes ;;
    pkgPath <- getPackagePath volumePath ;;
    jdkDirectory <- installPkg pkgPath extendedJavaHome versionSpec ;;
    try_catch (detach volumePath) (λ error, task_error error) ;;;
    ret jdkDirectory
  else if String.eqb fileExtension ".pkg" && String.eqb (platform A) "darwin" then
    installPkg sourceFile extendedJavaHome versionSpec
  else
    unzipJavaDownload sourceFile fileExtension archiveExtractLocation.

Definition sleepFor (milliseconds : N) : M A unit := emit (Sleep milliseconds).

Definition downloadArtifacts
    (endpoint account container destination pattern : string) : M A unit :=
  effect (Download destination pattern)
         (download_effect A endpoint account container destination pattern).

(** The statement that empties the destination directory.  The third
    conjunct of its test, [taskLib.stats(...).isDirectory], names a method
    without calling it and is always truthy. *)
Definition cleanDestination (clean : bool) (extractLocation : string) : M A unit :=
  if clean then
    found <- existsSync extractLocation ;;
    if found then
      console_log "CleanDestDir" [extractLocation] ;;;
      items <- readdirSync extractLocation ;;
      forEach items (λ item, rmRF (Path.join [extractLocation; item]))
    else ret tt
  else ret tt.

(** [getJava] (lines 29-87).  [jdkDirectory] is declared without a value
    and the tool-cache branch does not assign it: it is [None] there. *)
Definition getJava (versionSpec : string) : M A unit :=
  source <- getInputRequired "jdkSourceOption" ;;
  let preInstalled := String.eqb "PreInstalled" source in
  source' <- getInputRequired "jdkSourceOption" ;;
  let fromAzure := String.eqb "AzureStorage" source' in
  extractLocation <- getInputRequired "jdkDestinationDirectory" ;;
  cleanDestinationDirectory <- getBoolInput "cleanDestinationDirectory" ;;
  arch <- getInputRequired "jdkArchitectureOption" ;;
  let extendedJavaHome := extendedJavaHomeName versionSpec arch in
  debug "Trying to get tool from local cache first" ;;;
  localVersions <- observe (localToolVersions A "Java") ;;
  let version := evaluateVersions A localVersions versionSpec in
  cleanDestination cleanDestinationDirectory extractLocation ;;;
  jdkDirectory <-
    (if Js.truthy version then
       console_log "Info_ResolvedToolFromCache" [version] ;;;
       ret None
     else if preInstalled then
       preInstalledJavaDirectory <- getVariable extendedJavaHome ;;
       match preInstalledJavaDirectory with
       | None => throw (LocError "JavaNotPreinstalled" [versionSpec])
       | Some directory =>
           console_log "UsePreinstalledJava" [directory] ;;;
           ret (Some directory)
       end
     else if fromAzure then
       console_log "RetrievingJdkFromAzure" [] ;;;
       fileNameAndPath <- getInputOptional "azureCommonVirtualFile" ;;
       endpoint <- getInputRequired "azureResourceManagerEndpoint" ;;
       account <- getInputRequired "azureStorageAccountName" ;;
       container <- getInputRequired "azureContainerName" ;;
       downloadArtifacts endpoint account container extractLocation
         ("*" +:+ Js.show fileNameAndPath) ;;;
       sleepFor 250 ;;;
       match fileNameAndPath with
       | None => throw (TypeError "endsWith")
       | Some fileNameAndPath =>
           compressedFileExtension <- getSupportedFileEnding fileNameAndPath ;;
           extractSource <-
             buildFilePath extractLocation compressedFileExtension
               fileNameAndPath ;;
           directory <-
             installJDK extractSource compressedFileExtension extractLocation
               extendedJavaHome versionSpec ;;
           ret (Some directory)
       end
     else
       console_log "RetrievingJdkFromLocalPath" [] ;;;
       jdkFile <- getInputRequired "jdkFile" ;;
       compressedFileExtension <- getSupportedFileEnding jdkFile ;;
       directory <-
         installJDK jdkFile compressedFileExtension extractLocation
           extendedJavaHome versionSpec ;;
       ret (Some directory)) ;;
  console_log "SetJavaHome" [Js.show jdkDirectory] ;;;
  console_log "SetExtendedJavaHome" [extendedJavaHome; Js.show jdkDirectory] ;;;
  setVariable "JAVA_HOME" jdkDirectory ;;;
  setVariable extendedJavaHome jdkDirectory ;;;
  binDirectory <- pathJoin [jdkDirectory; Some (BIN_FOLDER A)] ;;
  prependPath binDirectory.

(** [run] (lines 18-27). *)
Definition run : M A unit :=
  try_catch
    (versionSpec <- getInputRequired "versionSpec" ;;
     getJava versionSpec ;;;
     setResult Succeeded)
    (λ error,
       task_error error ;;;
       setResult (Failed error)).

End Installer.

(** The runner that [sudo toolName] builds on a given system. *)
Definition sudoRunner (A : Agent) (toolName : string) (o : OS A) : ToolRunner :=
  if String.eqb (platform A) "win32" then tool toolName
  else line (which A toolName o) (tool "sudo").

Definition attachRunner (A : Agent) (sourceFile : string) (o : OS A) : ToolRunner :=
  line ("attach " +:+ Js.quoted sourceFile) (sudoRunner A "hdiutil" o).

Definition installerRunner (A : Agent) (pkgPath : string) (o : OS A) : ToolRunner :=
  line ("-package " +:+ Js.quoted pkgPath +:+ " -target /") (sudoRunner A "installer" o).

Definition detachRunner (A : Agent) (volumePath : string) (o : OS A) : ToolRunner :=
  line ("detach " +:+ Js.quoted volumePath) (sudoRunner A "hdiutil" o).

Definition unsupportedFileExtension : Error := LocError "UnsupportedFileExtension" [].

(** ** Trace disciplines used in the proofs *)

(** Events that neither execute a command nor publish anything. *)
Definition passive (e : Event) : bool :=
  match e with
  | Exec _ | SetVariable _ _ | PrependPath _ | SetResult _ => false
  | _ => true
  end.

(** [m] leaves a view of the trace as it found it, however it ends. *)
Definition preserves {A T X} (view : list Event → X) (m : M A T) : Prop :=
  ∀ s r s', m s = (r, s') → view (trace s') = view (trace s).

(** [m] never executes a command. *)
Definition quiet {A T} (m : M A T) : Prop := preserves execs m.

(** [m] never sets a variable. *)
Definition unassigning {A T} (m : M A T) : Prop := preserves assignments m.

(** When [m] returns, it returns a directory, not [undefined]. *)
Definition resolving {A} (m : M A (option string)) : Prop :=
  ∀ s value s', m s = (Returned value, s') → is_Some value.

(** [m] never ends in the classification error. *)
Definition neverUnsupported {A T} (m : M A T) : Prop :=
  ∀ s s', m s ≠ (Thrown unsupportedFileExtension, s').

(** When [m] ends in the classification error, it executed no command. *)
Definition guarded {A T} (m : M A T) : Prop :=
  ∀ s s', m s = (Thrown unsupportedFileExtension, s') →
          execs (trace s') = execs (trace s).

(** ** States reached by the steps, for the statements below *)

Definition logged {A} (events : list Event) (s : State A) : State A :=
  {| os := os s; vars := vars s; trace := events ++ trace s |}.

(** The state after [runner.exec()], whatever its outcome. *)
Definition ran {A} (runner : ToolRunner) (s : State A) : State A :=
  {| os := (spawn A runner (os s)).2; vars := vars s;
     trace := Exec runner :: trace s |}.

Definition execSucceeded (outcome : ExecOutcome) : bool :=
  match outcome with
  | Exited 0 => true
  | _ => false
  end.

(** The state after [attach sourceFile], whatever its outcome. *)
Definition afterAttach {A} (sourceFile : string) (s : State A) : State A :=
  ran (attachRunner A sourceFile (os s)) (logged [Console "AttachDiskImage" []] s).

(** The state after [runPkgInstaller pkgPath]. *)
Definition afterInstaller {A} (pkgPath : string) (s : State A) : State A :=
  let runner := installerRunner A pkgPath (os s) in
  if execSucceeded (spawn A runner (os s)).1 then ran runner s
  else logged [Debug "Failed to install pkg file"] (ran runner s).

(** The operating system as the package installer leaves it. *)
Definition installedSystem (A : Agent) (pkgPath : string) (o : OS A) : OS A :=
  (spawn A (installerRunner A pkgPath o) o).2.

(** The state in which [installPkg] lists the JDK root again. *)
Definition afterInstall {A} (pkgPath : string) (s : State A) : State A :=
  afterInstaller pkgPath (logged [Console "InstallJDK" []] s).

(** The state after [detach volumePath], whatever its outcome. *)
Definition afterDetach {A} (volumePath : string) (s : State A) : State A :=
  ran (detachRunner A volumePath (os s)) (logged [Console "DetachDiskImage" []] s).

(** ** A concrete macOS agent, to run the task on *)

Module Demo.

(** The part of the file system the task looks at. *)
Record World := { volumes : list string; jdks : list string }.

(** How the collaborators behave in one run. *)
Record Scenario := {
  taskInputs : list (string * string);
  presetVariables : list (string * string);
  cached : list string;
  attachOutcome : ExecOutcome;
  attachAdds : list string;
  volumeContents : list string;
  installerOutcome : ExecOutcome;
  installerAdds : list string;
  detachOutcome : ExecOutcome;
}.

Definition lastLine (runner : ToolRunner) : string :=
  default "" (last (args runner)).

Definition spawnTool (sc : Scenario) (runner : ToolRunner) (w : World)
  : ExecOutcome * World :=
  let l := lastLine runner in
  if String.prefix "attach " l then
    (attachOutcome sc,
     {| volumes := volumes w ++ attachAdds sc; jdks := jdks w |})
  else if String.prefix "-package " l then
    (installerOutcome sc,
     {| volumes := volumes w; jdks := jdks w ++ installerAdds sc |})
  else if String.prefix "detach " l then (detachOutcome sc, w)
  else (SpawnFailed, w).

Definition agent (sc : Scenario) : Agent := {|
  OS := World;
  platform := "darwin";
  inputs := list_to_map (taskInputs sc);
  readdir := λ dir w,
    if String.eqb dir VOLUMES_FOLDER then Some (volumes w)
    else if String.eqb dir JDK_FOLDER then Some (jdks w)
    else if String.prefix "/Volumes/" dir then Some (volumeContents sc)
    else None;
  pathExists := λ _ _, true;
  which := λ name _, "/usr/bin/" +:+ name;
  spawn := spawnTool sc;
  rmRF_effect := λ _ w, (Returned tt, w);
  localToolVersions := λ _ _, cached sc;
  evaluateVersions := λ versions spec,
    if bool_decide (spec ∈ versions) then spec else "";
  download_effect := λ _ _ _ _ _ w, (Returned tt, w);
  unzip_effect := λ _ _ destination w, (Returned (destination +:+ "/jdk"), w);
  BIN_FOLDER := "bin";
|}.

Definition initialWorld : World :=
  {| volumes := ["Macintosh HD"]; jdks := ["jdk-8.jdk"] |}.

Definition initial (sc : Scenario) : State (agent sc) := {|
  os := (initialWorld : OS (agent sc));
  vars := list_to_map (presetVariables sc);
  trace := [];
|}.

Definition localInputs (jdkFile : string) : list (string * string) :=
  [("versionSpec", "11"); ("jdkSourceOption", "LocalDirectory");
   ("jdkDestinationDirectory", "/opt/java");
   ("jdkArchitectureOption", "x64"); ("jdkFile", jdkFile)].

(** Scenario A: a disk image with one volume, one package, one new JDK. *)
Definition diskImage : Scenario := {|
  taskInputs := localInputs "/downloads/jdk-11.dmg";
  presetVariables := [];
  cached := [];
  attachOutcome := Exited 0;
  attachAdds := ["JDK 11"];
  volumeContents := ["JDK 11.pkg"; "README.txt"];
  installerOutcome := Exited 0;
  installerAdds := ["jdk-11.jdk"];
  detachOutcome := Exited 0;
|}.

(** The same, but unmounting the volume fails. *)
Definition detachFails : Scenario := {|
  taskInputs := localInputs "/downloads/jdk-11.dmg";
  presetVariables := [];
  cached := [];
  attachOutcome := Exited 0;
  attachAdds := ["JDK 11"];
  volumeContents := ["JDK 11.pkg"; "README.txt"];
  installerOutcome := Exited 0;
  installerAdds := ["jdk-11.jdk"];
  detachOutcome := Exited 16;
|}.

(** Attaching the image makes no new volume appear. *)
Definition noNewVolume : Scenario := {|
  taskInputs := localInputs "/downloads/jdk-11.dmg";
  presetVariables := [];
  cached := [];
  attachOutcome := Exited 0;
  attachAdds := [];
  volumeContents := ["JDK 11.pkg"];
  installerOutcome := Exited 0;
  installerAdds := ["jdk-11.jdk"];
  detachOutcome := Exited 0;
|}.

(** Scenario D: the mounted volume holds two packages. *)
Definition twoPackages : Scenario := {|
  taskInputs := localInputs "/downloads/jdk-11.dmg";
  presetVariables := [];
  cached := [];
  attachOutcome := Exited 0;
  attachAdds := ["JDK 11"];
  volumeContents := ["JDK 11.pkg"; "JDK 11 docs.pkg"];
  installerOutcome := Exited 0;
  installerAdds := ["jdk-11.jdk"];
  detachOutcome := Exited 0;
|}.

(** A package whose installation creates two entries in the JDK root. *)
Definition twoNewJdks : Scenario := {|
  taskInputs := localInputs "/downloads/jdk-11.pkg";
  presetVariables := [];
  cached := [];
  attachOutcome := Exited 0;
  attachAdds := [];
  volumeContents := [];
  installerOutcome := Exited 0;
  installerAdds := ["jdk-11.jdk"; "jdk-11-jre.jdk"];
  detachOutcome := Exited 0;
|}.

(** A package that installs one new JDK. *)
Definition onePackage : Scenario := {|
  taskInputs := localInputs "/downloads/jdk-11.pkg";
  presetVariables := [];
  cached := [];
  attachOutcome := Exited 0;
  attachAdds := [];
  volumeContents := [];
  installerOutcome := Exited 0;
  installerAdds := ["jdk-11.jdk"];
  detachOutcome := Exited 0;
|}.

(** The installer cannot be started; a JDK 11 was registered earlier. *)
Definition installerMissing : Scenario := {|
  taskInputs := localInputs "/downloads/jdk-11.pkg";
  presetVariables :=
    [("JAVA_HOME_11_x64",
      "/Library/Java/JavaVirtualMachines/jdk-11.jdk/Contents/Home")];
  cached := [];
  attachOutcome := Exited 0;
  attachAdds := [];
  volumeContents := [];
  installerOutcome := SpawnFailed;
  installerAdds := [];
  detachOutcome := Exited 0;
|}.

(** The installer runs, exits with an error and changes nothing; no JDK 11
    was registered earlier. *)
Definition installerNoOp : Scenario := {|
  taskInputs := localInputs "/downloads/jdk-11.pkg";
  presetVariables := [];
  cached := [];
  attachOutcome := Exited 0;
  attachAdds := [];
  volumeContents := [];
  installerOutcome := Exited 1;
  installerAdds := [];
  detachOutcome := Exited 0;
|}.

(** Scenario C: an archive of an unsupported kind. *)
Definition unsupportedArchive : Scenario := {|
  taskInputs := localInputs "/downloads/jdk-11.exe";
  presetVariables := [];
  cached := [];
  attachOutcome := Exited 0;
  attachAdds := [];
  volumeContents := [];
  installerOutcome := Exited 0;
  installerAdds := [];
  detachOutcome := Exited 0;
|}.

(** Scenario B: a compressed tar archive, left to the extractor. *)
Definition tarball : Scenario := {|
  taskInputs := localInputs "/downloads/jdk-11.tar.gz";
  presetVariables := [];
  cached := [];
  attachOutcome := Exited 0;
  attachAdds := [];
  volumeContents := [];
  installerOutcome := Exited 0;
  installerAdds := [];
  detachOutcome := Exited 0;
|}.

(** Java 11 is in the local tool cache. *)
Definition cacheHit : Scenario := {|
  taskInputs := localInputs "/downloads/jdk-11.pkg";
  presetVariables := [];
  cached := ["8"; "11"];
  attachOutcome := Exited 0;
  attachAdds := [];
  volumeContents := [];
  installerOutcome := Exited 0;
  installerAdds := ["jdk-11.jdk"];
  detachOutcome := Exited 0;
|}.

End Demo.


(** ** The earlier classifier and package install, kept in taskutils.ts *)

Module Earlier.
Section Earlier.
Context {A : Agent}.

(** The [for ... of] loop of the earlier [getSupportedFileEnding]. *)
Fixpoint scanEndings (file : string) (endings : list string) : M A string :=
  match endings with
  | [] => throw (LocError "UnsupportedFileExtension" [])
  | fileEnding :: rest =>
      if Js.endsWith file fileEnding then ret fileEnding
      else scanEndings file rest
  end.

(** [getSupportedFileEnding] (taskutils.ts, lines 154-161). *)
Definition getSupportedFileEnding (file : string) : M A string :=
  scanEndings file supportedFileEndings.

(** [installPkg] (taskutils.ts, lines 214-232): no test that the package
    exists, no variable lookup; any number of new entries other than one is
    an error. *)
Definition installPkg (pkgPath : string) : M A string :=
  console_log "InstallJDK" [] ;;;
  before <- readdirSync JDK_FOLDER ;;
  let JDKs := snapshot before in
  runPkgInstaller pkgPath ;;;
  after <- readdirSync JDK_FOLDER ;;
  let newJDKs := newEntries JDKs after in
  if negb (Nat.eqb (List.length newJDKs) 1)
  then throw (LocError "NewJDKIsNotInstalled" [])
  else pathJoin [Some JDK_FOLDER; newJDKs !! 0%nat; Some JDK_HOME_FOLDER].

End Earlier.
End Earlier.

(** ** Further vocabulary for the statements *)

(** Every event [m] adds to the trace satisfies [P], however [m] ends. *)
Definition emits {A T} (P : Event → Prop) (m : M A T) : Prop :=
  ∀ s r s', m s = (r, s') →
    ∃ new, trace s' = new ++ trace s ∧ Forall P new.

(** The three command lines the file builds. *)
Definition orchestratorCommand (A : Agent) (runner : ToolRunner) : Prop :=
  ∃ target o,
    runner = attachRunner A target o
    ∨ runner = installerRunner A target o
    ∨ runner = detachRunner A target o.

(** What [getJava] may add to the trace: a command only on macOS and only
    one of the three above, and never a task result. *)
Definition taskEvent (A : Agent) (e : Event) : Prop :=
  match e with
  | Exec runner => platform A = "darwin" ∧ orchestratorCommand A runner
  | SetResult _ => False
  | _ => True
  end.

(** The separators of [buildFilePath]: the class [[\\\/]] of its regular
    expression. *)
Definition isPathSeparator (c : ascii) : bool :=
  (Ascii.eqb c "\" || Ascii.eqb c "/")%bool.

(** The paths handed to [taskLib.rmRF] so far, most recent first. *)
Fixpoint removed (t : list Event) : list string :=
  match t with
  | [] => []
  | RmRF path :: rest => path :: removed rest
  | _ :: rest => removed rest
  end.

(** The value [getBoolInput('cleanDestinationDirectory', false)] has. *)
Definition cleanRequested (A : Agent) : bool :=
  String.eqb
    (Js.toUpperCase (default "" (inputs A !! "cleanDestinationDirectory")))
    "TRUE".

(** An input that [getInput(name, true)] accepts: present and not empty. *)
Definition provided (A : Agent) (name : string) : bool :=
  Js.truthy (default "" (inputs A !! name)).

(** The value of an input, the empty string when it is missing. *)
Definition inputValue (A : Agent) (name : string) : string :=
  default "" (inputs A !! name).

(** The state [getJava] is in after the Azure download and the wait that
    follows it. *)
Definition downloaded {A} (pattern : string) (s : State A) : State A :=
  {| os := (download_effect A
              (inputValue A "azureResourceManagerEndpoint")
              (inputValue A "azureStorageAccountName")
              (inputValue A "azureContainerName")
              (inputValue A "jdkDestinationDirectory") pattern (os s)).2;
     vars := vars s;
     trace :=
       [Sleep 250;
        Download (inputValue A "jdkDestinationDirectory") pattern;
        Console "RetrievingJdkFromAzure" []] ++ trace s |}.

(** The state in which [getJava] starts to look for the JDK: the debug
    line is written, and the destination directory is not yet cleaned. *)
Definition started {A} (s : State A) : State A :=
  logged [Debug "Trying to get tool from local cache first"] s.


(** ** More agents to run the task on *)

Module Agents.

(** The agent of [Demo] on another platform and with a listing for the
    destination directory ([None]: the directory cannot be read). *)
Definition custom (platformName : string) (destination : string)
    (destinationEntries : option (list string)) (sc : Demo.Scenario) : Agent := {|
  OS := Demo.World;
  platform := platformName;
  inputs := list_to_map (Demo.taskInputs sc);
  readdir := λ dir w,
    if String.eqb dir destination then destinationEntries
    else readdir (Demo.agent sc) dir w;
  pathExists := λ _ _, true;
  which := λ name _, "/usr/bin/" +:+ name;
  spawn := Demo.spawnTool sc;
  rmRF_effect := λ _ w, (Returned tt, w);
  localToolVersions := λ _ _, Demo.cached sc;
  evaluateVersions := λ versions spec,
    if bool_decide (spec ∈ versions) then spec else "";
  download_effect := λ _ _ _ _ _ w, (Returned tt, w);
  unzip_effect := λ _ _ dest w, (Returned (dest +:+ "/jdk"), w);
  BIN_FOLDER := "bin";
|}.

Definition initial (A : Agent) (w : OS A) (variables : list (string * string))
  : State A :=
  {| os := w; vars := list_to_map variables; trace := [] |}.

(** A disk image handed to the task on a Linux agent. *)
Definition linux : Agent := custom "linux" "/opt/java" None Demo.diskImage.

Definition sourceInputs (source : string) (clean : string)
  : list (string * string) :=
  [("versionSpec", "11"); ("jdkSourceOption", source);
   ("jdkDestinationDirectory", "/opt/java");
   ("cleanDestinationDirectory", clean);
   ("jdkArchitectureOption", "x64")].

(** The pre-installed source, with the destination to be cleaned first. *)
Definition preInstalledScenario : Demo.Scenario := {|
  Demo.taskInputs := sourceInputs "PreInstalled" "true";
  Demo.presetVariables := [];
  Demo.cached := [];
  Demo.attachOutcome := Exited 0;
  Demo.attachAdds := [];
  Demo.volumeContents := [];
  Demo.installerOutcome := Exited 0;
  Demo.installerAdds := [];
  Demo.detachOutcome := Exited 0;
|}.

Definition preInstalled : Agent :=
  custom "darwin" "/opt/java" (Some ["old-jdk"; "notes.txt"])
    preInstalledScenario.



(** A disk image that cannot be attached. *)
Definition attachFailsScenario : Demo.Scenario := {|
  Demo.taskInputs := Demo.localInputs "/downloads/jdk-11.dmg";
  Demo.presetVariables := [];
  Demo.cached := [];
  Demo.attachOutcome := Exited 1;
  Demo.attachAdds := [];
  Demo.volumeContents := [];
  Demo.installerOutcome := Exited 0;
  Demo.installerAdds := ["jdk-11.jdk"];
  Demo.detachOutcome := Exited 0;
|}.

(** A disk image whose package installs nothing, with no JDK registered. *)
Definition installFailsScenario : Demo.Scenario := {|
  Demo.taskInputs := Demo.localInputs "/downloads/jdk-11.dmg";
  Demo.presetVariables := [];
  Demo.cached := [];
  Demo.attachOutcome := Exited 0;
  Demo.attachAdds := ["JDK 11"];
  Demo.volumeContents := ["JDK 11.pkg"];
  Demo.installerOutcome := Exited 1;
  Demo.installerAdds := [];
  Demo.detachOutcome := Exited 0;
|}.

(** A blob of an unsupported kind, fetched from Azure storage. *)
Definition azureScenario : Demo.Scenario := {|
  Demo.taskInputs :=
    [("versionSpec", "11"); ("jdkSourceOption", "AzureStorage");
     ("jdkDestinationDirectory", "/opt/java");
     ("jdkArchitectureOption", "x64");
     ("azureResourceManagerEndpoint", "endpoint");
     ("azureStorageAccountName", "account");
     ("azureContainerName", "jdks");
     ("azureCommonVirtualFile", "java/jdk-11.exe")];
  Demo.presetVariables := [];
  Demo.cached := [];
  Demo.attachOutcome := Exited 0;
  Demo.attachAdds := [];
  Demo.volumeContents := [];
  Demo.installerOutcome := Exited 0;
  Demo.installerAdds := [];
  Demo.detachOutcome := Exited 0;
|}.

Definition azure : Agent := custom "linux" "/opt/java" None azureScenario.

End Agents.

(** * Properties *)

(** ** Strings and paths *)

Lemma substring_full (s : string) : substring 0 (String.length s) s = s.
Proof. induction s as [|c s IH]; simpl; [reflexivity | now rewrite IH]. Qed.

Lemma substring_skip (p t : string) (n : nat) :
  substring (String.length p) n (p +:+ t) = substring 0 n t.
Proof. induction p as [|c p IH]; simpl; [reflexivity | exact IH]. Qed.

Lemma append_cons (c : ascii) (p t : string) :
  String c p +:+ t = String c (p +:+ t).
Proof. reflexivity. Qed.

Lemma substring_split (s : string) (k : nat) :
  k ≤ String.length s →
  s = substring 0 k s +:+ substring k (String.length s - k) s.
Proof.
  revert k. induction s as [|c s IH]; intros k Hk; simpl in *.
  - destruct k; [reflexivity | lia].
  - destruct k as [|k]; simpl.
    + now rewrite substring_full.
    + rewrite append_cons. f_equal. apply IH. lia.
Qed.

Lemma length_append (p t : string) :
  String.length (p +:+ t) = String.length p + String.length t.
Proof.
  induction p as [|c p IH]; [reflexivity|].
  rewrite append_cons. simpl. now rewrite IH.
Qed.

(** [endsWith] is exactly the suffix test. *)
Lemma endsWith_suffix (s t : string) :
  Js.endsWith s t = true ↔ ∃ p, s = p +:+ t.
Proof.
  unfold Js.endsWith. split.
  - destruct (Nat.leb_spec (String.length t) (String.length s)) as [Hle|]; [|discriminate].
    intros H%String.eqb_eq.
    exists (substring 0 (String.length s - String.length t) s).
    assert (E := substring_split s (String.length s - String.length t)
                   ltac:(lia)).
    replace (String.length s - (String.length s - String.length t))
      with (String.length t) in E by lia.
    now rewrite H in E.
  - intros [p ->]. rewrite length_append.
    destruct (Nat.leb_spec (String.length t) (String.length p + String.length t)); [|lia].
    replace (String.length p + String.length t - String.length t)
      with (String.length p) by lia.
    rewrite substring_skip, substring_full. apply String.eqb_refl.
Qed.

(** ** Joining the JDK root with an entry name *)

Lemma append_empty_r (p : string) : p +:+ "" = p.
Proof. induction p as [|c p IH]; [reflexivity|]. rewrite append_cons. now rewrite IH. Qed.

Lemma append_assoc (p q r : string) : (p +:+ q) +:+ r = p +:+ (q +:+ r).
Proof.
  induction p as [|c p IH]; [reflexivity|]. rewrite !append_cons. now rewrite IH.
Qed.

Lemma substring_skip_more (p t : string) (k n : nat) :
  substring (String.length p + k) n (p +:+ t) = substring k n t.
Proof. induction p as [|c p IH]; [reflexivity|]. rewrite append_cons. exact IH. Qed.

(** A search string no longer than the second part is looked for in that
    part alone. *)
Lemma endsWith_append (p t u : string) :
  String.length u ≤ String.length t →
  Js.endsWith (p +:+ t) u = Js.endsWith t u.
Proof.
  intros Hle. unfold Js.endsWith. rewrite length_append.
  destruct (Nat.leb_spec (String.length u) (String.length t)) as [_|]; [|lia].
  destruct (Nat.leb_spec (String.length u) (String.length p + String.length t));
    [|lia].
  replace (String.length p + String.length t - String.length u)
    with (String.length p + (String.length t - String.length u)) by lia.
  now rewrite substring_skip_more.
Qed.

Lemma split_by_plain (sep : ascii → bool) (name : string) (c : ascii) (rest : string) :
  forallb (λ a, negb (sep a)) (list_ascii_of_string name) = true →
  sep c = true →
  Js.split_by sep (name +:+ String c rest) = name :: Js.split_by sep rest.
Proof.
  intros Hname Hc. induction name as [|a name IH].
  - change ("" +:+ String c rest) with (String c rest).
    cbn [Js.split_by]. now rewrite Hc.
  - cbn in Hname. apply andb_prop in Hname as [Ha Hname].
    rewrite append_cons. cbn [Js.split_by].
    apply negb_true_iff in Ha. rewrite Ha, (IH Hname). reflexivity.
Qed.

(** For an entry name as a directory listing gives it, the JDK home is the
    three parts separated by [/]. *)
Lemma join_jdk_home (name : string) :
  Path.plainName name = true →
  Path.join [JDK_FOLDER; name; JDK_HOME_FOLDER]
  = JDK_FOLDER +:+ "/" +:+ name +:+ "/" +:+ JDK_HOME_FOLDER.
Proof.
  unfold Path.plainName.
  intros [[[Hempty Hdot]%andb_prop Hdots]%andb_prop Hplain]%andb_prop.
  apply negb_true_iff in Hempty, Hdot, Hdots.
  unfold Path.join.
  assert (Hne : name ≠ "") by (now apply String.eqb_neq).
  rewrite filter_cons_True by discriminate.
  rewrite filter_cons_True by exact Hne.
  rewrite filter_cons_True by discriminate.
  rewrite filter_nil.
  change (String.concat "/" [JDK_FOLDER; name; JDK_HOME_FOLDER])
    with (JDK_FOLDER +:+ "/" +:+ name +:+ "/" +:+ JDK_HOME_FOLDER).
  set (p := JDK_FOLDER +:+ "/" +:+ name +:+ "/" +:+ JDK_HOME_FOLDER).
  unfold Path.normalize.
  assert (Hp : String.eqb p "" = false) by reflexivity.
  assert (Habs : String.prefix "/" p = true) by reflexivity.
  assert (Htrail : Js.endsWith p "/" = false).
  { unfold p. rewrite <- !append_assoc.
    rewrite endsWith_append by (cbn; lia). reflexivity. }
  rewrite Hp, Habs, Htrail. cbv zeta. cbn [negb].
  assert (Hbody : Path.normalizeString p false
    = "Library/Java/JavaVirtualMachines/" +:+ name +:+ "/" +:+ JDK_HOME_FOLDER).
  { unfold Path.normalizeString.
    change p with
      ("" +:+ String "/" ("Library" +:+ String "/" ("Java" +:+ String "/"
        ("JavaVirtualMachines" +:+ String "/" (name +:+ String "/"
          ("Contents" +:+ String "/" "Home")))))).
    rewrite !split_by_plain by (reflexivity || exact Hplain).
    cbn [Js.split_by Path.is_slash Ascii.eqb Bool.eqb].
    cbn [fold_left Path.normalize_step String.eqb Ascii.eqb Bool.eqb orb].
    unfold Path.normalize_step.
    rewrite Hempty, Hdot, Hdots. cbn [orb rev app].
    reflexivity. }
  rewrite Hbody.
  change (String.eqb ("Library/Java/JavaVirtualMachines/" +:+ name +:+ "/" +:+
                      JDK_HOME_FOLDER) "") with false.
  cbv iota. rewrite append_empty_r. reflexivity.
Qed.

(** ** The directory difference *)

Lemma elem_of_newEntries (before : gset string) (after : list string) (x : string) :
  x ∈ newEntries before after ↔ x ∈ after ∧ x ∉ before.
Proof. unfold newEntries. rewrite list_elem_of_filter. tauto. Qed.

Lemma elem_of_dirDiff (before after : list string) (x : string) :
  x ∈ dirDiff before after ↔ x ∈ after ∧ x ∉ before.
Proof.
  unfold dirDiff, snapshot. rewrite elem_of_newEntries, elem_of_list_to_set.
  reflexivity.
Qed.

Lemma snapshot_perm (l l' : list string) : l ≡ₚ l' → snapshot l = snapshot l'.
Proof.
  intros Hp. unfold snapshot. apply set_eq. intros x.
  rewrite !elem_of_list_to_set. now rewrite Hp.
Qed.

Lemma newEntries_perm (before : gset string) (after after' : list string) :
  after ≡ₚ after' → newEntries before after ≡ₚ newEntries before after'.
Proof. intros Hp. unfold newEntries. now rewrite Hp. Qed.

Lemma dirDiff_self (S : list string) : dirDiff S S = [].
Proof.
  destruct (dirDiff S S) as [|x l] eqn:E; [reflexivity|].
  assert (Hx : x ∈ dirDiff S S) by (rewrite E; left).
  apply elem_of_dirDiff in Hx. tauto.
Qed.

(** ** Stepping through the monad *)

Section Steps.
Context {A : Agent}.
Implicit Types s : State A.

Lemma bind_returned {T U} (m : M A T) (k : T → M A U) s x s' :
  m s = (Returned x, s') → bind m k s = k x s'.
Proof. unfold bind. now intros ->. Qed.

Lemma bind_thrown {T U} (m : M A T) (k : T → M A U) s e s' :
  m s = (Thrown e, s') → bind m k s = (Thrown e, s').
Proof. unfold bind. now intros ->. Qed.

Lemma bind_inv {T U} (m : M A T) (k : T → M A U) s r s' :
  bind m k s = (r, s') →
  (∃ x s1, m s = (Returned x, s1) ∧ k x s1 = (r, s'))
  ∨ (∃ e, m s = (Thrown e, s') ∧ r = Thrown e).
Proof.
  unfold bind. destruct (m s) as [[x|e] s1]; intros H.
  - left. eauto.
  - right. inversion H; subst. eauto.
Qed.

Lemma try_catch_inv {T} (m : M A T) (h : Error → M A T) s r s' :
  try_catch m h s = (r, s') →
  (∃ x, m s = (Returned x, s') ∧ r = Returned x)
  ∨ (∃ e s1, m s = (Thrown e, s1) ∧ h e s1 = (r, s')).
Proof.
  unfold try_catch. destruct (m s) as [[x|e] s1]; intros H.
  - left. inversion H; subst. eauto.
  - right. eauto.
Qed.

Lemma readdirSync_some dir s entries :
  readdir A dir (os s) = Some entries →
  readdirSync dir s = (Returned entries, s).
Proof. unfold readdirSync. now intros ->. Qed.

Lemma readdirSync_none dir s :
  readdir A dir (os s) = None →
  readdirSync dir s = (Thrown (FsError dir), s).
Proof. unfold readdirSync. now intros ->. Qed.

Lemma sudo_runner toolName s :
  sudo toolName s = (Returned (sudoRunner A toolName (os s)), s).
Proof.
  unfold sudo, sudoRunner. destruct (String.eqb (platform A) "win32"); reflexivity.
Qed.

End Steps.

(** ** The privileged tools *)

Section Tools.
Context {A : Agent}.
Implicit Types s : State A.

Lemma exec_run runner s :
  exec runner s =
  (if execSucceeded (spawn A runner (os s)).1 then Returned 0%Z
   else Thrown (ExecError runner (spawn A runner (os s)).1),
   ran runner s).
Proof.
  unfold exec, ran. destruct (spawn A runner (os s)) as [outcome o]. simpl.
  destruct outcome as [[| |]|]; reflexivity.
Qed.

Lemma attach_run sourceFile s :
  attach sourceFile s =
  (let runner := attachRunner A sourceFile (os s) in
   if execSucceeded (spawn A runner (os s)).1 then Returned tt
   else Thrown (ExecError runner (spawn A runner (os s)).1),
   afterAttach sourceFile s).
Proof.
  unfold attach, afterAttach, attachRunner, bind, console_log, emit, logged.
  rewrite sudo_runner, exec_run. simpl.
  destruct (execSucceeded _); reflexivity.
Qed.

Lemma detach_run volumePath s :
  detach volumePath s =
  (let runner := detachRunner A volumePath (os s) in
   if execSucceeded (spawn A runner (os s)).1 then Returned tt
   else Thrown (ExecError runner (spawn A runner (os s)).1),
   afterDetach volumePath s).
Proof.
  unfold detach, afterDetach, detachRunner, bind, console_log, emit, logged.
  rewrite sudo_runner, exec_run. simpl.
  destruct (execSucceeded _); reflexivity.
Qed.

(** [runPkgInstaller] returns normally whatever the installer does. *)
Lemma runPkgInstaller_run pkgPath s :
  runPkgInstaller pkgPath s = (Returned tt, afterInstaller pkgPath s).
Proof.
  unfold runPkgInstaller, afterInstaller, installerRunner, try_catch, bind.
  rewrite sudo_runner, exec_run. simpl.
  destruct (execSucceeded _); reflexivity.
Qed.

Lemma os_afterInstaller pkgPath s :
  os (afterInstaller pkgPath s)
  = (spawn A (installerRunner A pkgPath (os s)) (os s)).2.
Proof. unfold afterInstaller. destruct (execSucceeded _); reflexivity. Qed.

Lemma vars_afterInstaller pkgPath s :
  vars (afterInstaller pkgPath s) = vars s.
Proof. unfold afterInstaller. destruct (execSucceeded _); reflexivity. Qed.

End Tools.

(** ** The package install flow *)

Section InstallPkg.
Context {A : Agent}.
Implicit Types s : State A.

(** [installPkg], once the package exists and both listings of the JDK
    root succeed: its result is decided by the difference of the listings. *)
Lemma installPkg_run pkgPath ext ver s before after :
  pathExists A pkgPath (os s) = true →
  readdir A JDK_FOLDER (os s) = Some before →
  readdir A JDK_FOLDER (installedSystem A pkgPath (os s)) = Some after →
  installPkg pkgPath ext ver s =
  let s1 := afterInstall pkgPath s in
  match dirDiff before after with
  | [] =>
      match vars s !! ext with
      | None => (Thrown (LocError "JavaNotPreinstalled" [ver]), s1)
      | Some directory =>
          (Returned directory,
           logged [Console "UsePreinstalledJava" [directory];
                   Console "PreInstalledJavaUpgraded" []] s1)
      end
  | first :: _ =>
      (Returned (Path.join [JDK_FOLDER; first; JDK_HOME_FOLDER]),
       logged [Console "JavaSuccessfullyInstalled" []] s1)
  end.
Proof.
  intros Hexists Hbefore Hafter. unfold installPkg, afterInstall.
  assert (Hafter' :
    readdir A JDK_FOLDER
      (os (afterInstaller pkgPath (logged [Console "InstallJDK" []] s)))
    = Some after) by (rewrite os_afterInstaller; exact Hafter).
  clear Hafter. rename Hafter' into Hafter.
  erewrite bind_returned by (unfold existsSync, observe; rewrite Hexists; reflexivity).
  cbn [negb].
  erewrite bind_returned by reflexivity.
  erewrite bind_returned by (apply readdirSync_some; exact Hbefore).
  erewrite bind_returned by apply runPkgInstaller_run.
  erewrite bind_returned by (apply readdirSync_some; exact Hafter).
  fold (dirDiff before after).
  destruct (dirDiff before after) as [|first rest]; cbn [List.length Nat.eqb].
  - erewrite bind_returned by reflexivity.
    rewrite vars_afterInstaller. cbn [vars logged].
    destruct (vars s !! ext); reflexivity.
  - reflexivity.
Qed.

End InstallPkg.

(** ** C10: the directory difference is a set difference *)

(** C10.  [dirDiff before after] holds exactly the names listed in [after]
    and not in [before]; as a collection of names it does not depend on the
    order in which either directory was listed (the array itself follows
    the order of the second listing); and a directory compared with itself
    has no new entry. *)
Theorem dirDiff_set_difference (before before' after after' : list string) :
  (∀ name, name ∈ dirDiff before after ↔ name ∈ after ∧ name ∉ before)
  ∧ (before ≡ₚ before' → after ≡ₚ after' →
     dirDiff before after ≡ₚ dirDiff before' after'
     ∧ dirDiff before after = dirDiff before' after
     ∧ List.length (dirDiff before after) = List.length (dirDiff before' after'))
  ∧ dirDiff after after = [].
Proof.
  split; [|split].
  - intros name. apply elem_of_dirDiff.
  - intros Hb Ha.
    assert (Hperm : dirDiff before after ≡ₚ dirDiff before' after').
    { unfold dirDiff. rewrite (snapshot_perm _ _ Hb). now apply newEntries_perm. }
    split; [exact Hperm|]. split.
    + unfold dirDiff. now rewrite (snapshot_perm _ _ Hb).
    + now rewrite Hperm.
  - apply dirDiff_self.
Qed.

Lemma dirDiff_set_difference_witness :
  dirDiff ["jdk-8.jdk"; "jdk-9.jdk"] ["jdk-11.jdk"; "jdk-9.jdk"; "jdk-8.jdk"]
  ≡ₚ dirDiff ["jdk-9.jdk"; "jdk-8.jdk"] ["jdk-8.jdk"; "jdk-11.jdk"; "jdk-9.jdk"].
Proof.
  apply (dirDiff_set_difference
           ["jdk-8.jdk"; "jdk-9.jdk"] ["jdk-9.jdk"; "jdk-8.jdk"]
           ["jdk-11.jdk"; "jdk-9.jdk"; "jdk-8.jdk"]
           ["jdk-8.jdk"; "jdk-11.jdk"; "jdk-9.jdk"]).
  - apply (bool_decide_unpack _). vm_compute. reflexivity.
  - apply (bool_decide_unpack _). vm_compute. reflexivity.
Defined.

(** ** The archive classifier *)

Lemma find_first {T} (f : T → bool) (l : list T) (x : T) :
  List.find f l = Some x ↔
  ∃ earlier later,
    l = earlier ++ x :: later ∧ f x = true
    ∧ Forall (λ e, f e = false) earlier.
Proof.
  induction l as [|y l IH]; simpl.
  - split; [discriminate|]. intros ([|? ?] & ? & ? & _); discriminate.
  - destruct (f y) eqn:Hy.
    + split.
      * intros [= ->]. exists [], l. auto.
      * intros ([|z earlier] & later & Heq & Hx & Hall).
        -- now inversion Heq.
        -- inversion Heq; subst. inversion Hall; subst. congruence.
    + rewrite IH. split.
      * intros (earlier & later & -> & Hx & Hall).
        exists (y :: earlier), later. auto.
      * intros ([|z earlier] & later & Heq & Hx & Hall).
        -- inversion Heq; subst. congruence.
        -- inversion Heq; subst. inversion Hall; subst. eauto.
Qed.

Lemma find_nothing {T} (f : T → bool) (l : list T) :
  List.find f l = None ↔ Forall (λ e, f e = false) l.
Proof.
  induction l as [|y l IH]; simpl.
  - split; auto.
  - destruct (f y) eqn:Hy.
    + split; [discriminate|]. intros H. inversion H; subst. congruence.
    + rewrite IH. split; [auto|]. intros H. now inversion H.
Qed.

Lemma supported_truthy (ending : string) :
  In ending supportedFileEndings → Js.truthy ending = true.
Proof.
  unfold supportedFileEndings. simpl.
  intros [<-|[<-|[<-|[<-|[<-|[<-|[]]]]]]]; reflexivity.
Qed.

(** What the classifier computes, in one equation. *)
Lemma getSupportedFileEnding_run {A} (file : string) (s : State A) :
  getSupportedFileEnding file s =
  (match List.find (λ ending, Js.endsWith file ending) supportedFileEndings with
   | Some ending => Returned ending
   | None => Thrown unsupportedFileExtension
   end, s).
Proof.
  unfold getSupportedFileEnding.
  destruct (List.find _ supportedFileEndings) as [ending|] eqn:E; [|reflexivity].
  apply List.find_some in E as [Hin _].
  now rewrite (supported_truthy _ Hin).
Qed.

(** ** Which steps execute commands, which publish variables, and which
       can end in the classification error *)

Section PassiveSteps.
Context {A : Agent} {X : Type} (view : list Event → X).
Hypothesis view_passive : ∀ e t, passive e = true → view (e :: t) = view t.
Implicit Types s : State A.

Lemma preserves_ret {T} (x : T) : preserves view (ret (A:=A) x).
Proof. intros s r s' [= <- <-]. reflexivity. Qed.

Lemma preserves_throw {T} e : preserves view (throw (A:=A) (T:=T) e).
Proof. intros s r s' [= <- <-]. reflexivity. Qed.

Lemma preserves_bind {T U} (m : M A T) (k : T → M A U) :
  preserves view m → (∀ x, preserves view (k x)) → preserves view (bind m k).
Proof.
  intros Hm Hk s r s' [(x & s1 & H1 & H2)|(e & H1 & _)]%bind_inv.
  - rewrite (Hk _ _ _ _ H2). eapply Hm, H1.
  - eapply Hm, H1.
Qed.

Lemma preserves_try_catch {T} (m : M A T) (h : Error → M A T) :
  preserves view m → (∀ e, preserves view (h e)) →
  preserves view (try_catch m h).
Proof.
  intros Hm Hh s r s' [(x & H1 & _)|(e & s1 & H1 & H2)]%try_catch_inv.
  - eapply Hm, H1.
  - rewrite (Hh _ _ _ _ H2). eapply Hm, H1.
Qed.

Lemma preserves_emit e : passive e = true → preserves view (emit (A:=A) e).
Proof. intros He s r s' [= <- <-]. simpl. now apply view_passive. Qed.

Lemma preserves_effect {T} e (f : OS A → Outcome T * OS A) :
  passive e = true → preserves view (effect e f).
Proof.
  intros He s r s'. unfold effect. destruct (f (os s)) as [r' o].
  intros [= <- <-]. simpl. now apply view_passive.
Qed.

Lemma preserves_observe {T} (f : OS A → T) : preserves view (observe f).
Proof. intros s r s' [= <- <-]. reflexivity. Qed.

Lemma preserves_readdirSync dir : preserves view (readdirSync (A:=A) dir).
Proof.
  intros s r s'. unfold readdirSync.
  destruct (readdir A dir (os s)); intros [= <- <-]; reflexivity.
Qed.

Lemma preserves_getVariable name : preserves view (getVariable (A:=A) name).
Proof. intros s r s' [= <- <-]. reflexivity. Qed.

Lemma preserves_getInputRequired name :
  preserves view (getInputRequired (A:=A) name).
Proof.
  unfold getInputRequired. destruct (inputs A !! name) as [v|].
  - destruct (Js.truthy v); [apply preserves_ret | apply preserves_throw].
  - apply preserves_throw.
Qed.

Lemma preserves_pathJoin parts : preserves view (pathJoin (A:=A) parts).
Proof.
  unfold pathJoin.
  destruct (mapM id parts); [apply preserves_ret | apply preserves_throw].
Qed.

Lemma preserves_getSupportedFileEnding file :
  preserves view (getSupportedFileEnding (A:=A) file).
Proof. intros s r s'. rewrite getSupportedFileEnding_run. now intros [= <- <-]. Qed.

Lemma preserves_forEach items (body : string → M A unit) :
  (∀ item, preserves view (body item)) → preserves view (forEach items body).
Proof.
  intros Hbody. induction items as [|item rest IH]; simpl.
  - apply preserves_ret.
  - apply preserves_bind; [apply Hbody | intros _; exact IH].
Qed.

Lemma preserves_cleanDestination clean extractLocation :
  preserves view (cleanDestination (A:=A) clean extractLocation).
Proof.
  unfold cleanDestination, existsSync, console_log, rmRF.
  destruct clean; [|apply preserves_ret].
  apply preserves_bind; [apply preserves_observe|].
  intros [|]; [|apply preserves_ret].
  apply preserves_bind; [now apply preserves_emit|]. intros _.
  apply preserves_bind; [apply preserves_readdirSync|]. intros items.
  apply preserves_forEach. intros item. now apply preserves_effect.
Qed.

End PassiveSteps.

Lemma execs_passive e t : passive e = true → execs (e :: t) = execs t.
Proof. destruct e; simpl; congruence. Qed.

Lemma assignments_passive e t :
  passive e = true → assignments (e :: t) = assignments t.
Proof. destruct e; simpl; congruence. Qed.

Section Disciplines.
Context {A : Agent}.
Implicit Types s : State A.

Lemma neverUnsupported_ret {T} (x : T) : neverUnsupported (ret (A:=A) x).
Proof. intros s s'. discriminate. Qed.

Lemma neverUnsupported_throw {T} e :
  e ≠ unsupportedFileExtension → neverUnsupported (throw (A:=A) (T:=T) e).
Proof. intros He s s' [= -> _]. now apply He. Qed.

Lemma neverUnsupported_bind {T U} (m : M A T) (k : T → M A U) :
  neverUnsupported m → (∀ x, neverUnsupported (k x)) →
  neverUnsupported (bind m k).
Proof.
  intros Hm Hk s s' [(x & s1 & H1 & H2)|(e & H1 & [= <-])]%bind_inv.
  - exact (Hk _ _ _ H2).
  - exact (Hm _ _ H1).
Qed.

Lemma neverUnsupported_try_catch {T} (m : M A T) (h : Error → M A T) :
  (∀ e, neverUnsupported (h e)) → neverUnsupported (try_catch m h).
Proof.
  intros Hh s s' [(x & _ & [=])|(e & s1 & _ & H2)]%try_catch_inv.
  exact (Hh _ _ _ H2).
Qed.

Lemma neverUnsupported_emit e : neverUnsupported (emit (A:=A) e).
Proof. intros s s'. discriminate. Qed.

Lemma neverUnsupported_observe {T} (f : OS A → T) : neverUnsupported (observe f).
Proof. intros s s'. discriminate. Qed.

Lemma neverUnsupported_readdirSync dir : neverUnsupported (readdirSync (A:=A) dir).
Proof.
  intros s s'. unfold readdirSync.
  destruct (readdir A dir (os s)); discriminate.
Qed.

Lemma neverUnsupported_getVariable name : neverUnsupported (getVariable (A:=A) name).
Proof. intros s s'. discriminate. Qed.

Lemma neverUnsupported_setVariable name val :
  neverUnsupported (setVariable (A:=A) name val).
Proof. intros s s'. discriminate. Qed.

Lemma neverUnsupported_pathJoin parts : neverUnsupported (pathJoin (A:=A) parts).
Proof.
  intros s s'. unfold pathJoin. destruct (mapM id parts); discriminate.
Qed.

Lemma neverUnsupported_attach sourceFile : neverUnsupported (attach (A:=A) sourceFile).
Proof.
  intros s s'. rewrite attach_run. cbv zeta.
  destruct (execSucceeded _); discriminate.
Qed.

Lemma neverUnsupported_runPkgInstaller pkgPath :
  neverUnsupported (runPkgInstaller (A:=A) pkgPath).
Proof. intros s s'. rewrite runPkgInstaller_run. discriminate. Qed.

Lemma neverUnsupported_getVolumePath volumes :
  neverUnsupported (getVolumePath (A:=A) volumes).
Proof.
  unfold getVolumePath.
  apply neverUnsupported_bind; [apply neverUnsupported_readdirSync|].
  intros entries. cbv zeta. destruct (negb _).
  - now apply neverUnsupported_throw.
  - apply neverUnsupported_pathJoin.
Qed.

Lemma neverUnsupported_getPackagePath volumePath :
  neverUnsupported (getPackagePath (A:=A) volumePath).
Proof.
  unfold getPackagePath.
  apply neverUnsupported_bind; [apply neverUnsupported_readdirSync|].
  intros entries. cbv zeta. destruct (Nat.eqb _ 1).
  - apply neverUnsupported_pathJoin.
  - destruct (Nat.eqb _ 0); now apply neverUnsupported_throw.
Qed.

Lemma neverUnsupported_installPkg pkgPath ext ver :
  neverUnsupported (installPkg (A:=A) pkgPath ext ver).
Proof.
  unfold installPkg, existsSync, console_log.
  apply neverUnsupported_bind; [apply neverUnsupported_observe|].
  intros found. destruct (negb found); [now apply neverUnsupported_throw|].
  apply neverUnsupported_bind; [apply neverUnsupported_emit|]. intros _.
  apply neverUnsupported_bind; [apply neverUnsupported_readdirSync|]. intros before.
  cbv zeta.
  apply neverUnsupported_bind; [apply neverUnsupported_runPkgInstaller|]. intros _.
  apply neverUnsupported_bind; [apply neverUnsupported_readdirSync|]. intros after.
  destruct (Nat.eqb _ 0).
  - apply neverUnsupported_bind; [apply neverUnsupported_getVariable|].
    intros [directory|]; [|now apply neverUnsupported_throw].
    apply neverUnsupported_bind; [apply neverUnsupported_emit|]. intros _.
    apply neverUnsupported_bind; [apply neverUnsupported_emit|]. intros _.
    apply neverUnsupported_ret.
  - apply neverUnsupported_bind; [apply neverUnsupported_emit|]. intros _.
    apply neverUnsupported_pathJoin.
Qed.

Lemma guarded_quiet {T} (m : M A T) : quiet m → guarded m.
Proof. intros Hm s s' H. exact (Hm _ _ _ H). Qed.

Lemma guarded_never {T} (m : M A T) : neverUnsupported m → guarded m.
Proof. intros Hm s s' H. now destruct (Hm _ _ H). Qed.

Lemma guarded_bind_quiet {T U} (m : M A T) (k : T → M A U) :
  quiet m → (∀ x, guarded (k x)) → guarded (bind m k).
Proof.
  intros Hm Hk s s' [(x & s1 & H1 & H2)|(e & H1 & _)]%bind_inv.
  - rewrite (Hk _ _ _ H2). eapply Hm, H1.
  - eapply Hm, H1.
Qed.

Lemma guarded_bind_never {T U} (m : M A T) (k : T → M A U) :
  guarded m → (∀ x, neverUnsupported (k x)) → guarded (bind m k).
Proof.
  intros Hm Hk s s' [(x & s1 & H1 & H2)|(e & H1 & [= <-])]%bind_inv.
  - now destruct (Hk _ _ _ H2).
  - exact (Hm _ _ H1).
Qed.

(** The disk-image and package flows never end in the classification
    error; plain extraction never executes a command of the task. *)
Lemma guarded_installJDK sourceFile fileExtension destination ext ver :
  guarded (installJDK (A:=A) sourceFile fileExtension destination ext ver).
Proof.
  unfold installJDK.
  destruct (String.eqb fileExtension ".dmg" && _).
  - apply guarded_never.
    apply neverUnsupported_bind; [apply neverUnsupported_readdirSync|]. intros before.
    cbv zeta.
    apply neverUnsupported_bind; [apply neverUnsupported_attach|]. intros _.
    apply neverUnsupported_bind; [apply neverUnsupported_getVolumePath|]. intros volumePath.
    apply neverUnsupported_bind; [apply neverUnsupported_getPackagePath|]. intros pkgPath.
    apply neverUnsupported_bind; [apply neverUnsupported_installPkg|]. intros jdkDirectory.
    apply neverUnsupported_bind; [|intros _; apply neverUnsupported_ret].
    apply neverUnsupported_try_catch. intros e. apply neverUnsupported_emit.
  - destruct (String.eqb fileExtension ".pkg" && _).
    + apply guarded_never, neverUnsupported_installPkg.
    + apply guarded_quiet. unfold unzipJavaDownload. now apply (preserves_effect execs execs_passive).
Qed.

End Disciplines.

Section Classifier.
Context {A : Agent}.
Implicit Types s : State A.

Lemma guarded_getJava versionSpec : guarded (getJava (A:=A) versionSpec).
Proof.
  unfold getJava, getBoolInput, getInputOptional, debug, console_log,
    downloadArtifacts, sleepFor, buildFilePath.
  apply guarded_bind_quiet; [apply preserves_getInputRequired|]. intros source.
  apply guarded_bind_quiet; [apply preserves_getInputRequired|]. intros source'.
  apply guarded_bind_quiet; [apply preserves_getInputRequired|]. intros extractLocation.
  apply guarded_bind_quiet.
  { apply preserves_bind; [apply preserves_ret | intros v; apply preserves_ret]. }
  intros clean.
  apply guarded_bind_quiet; [apply preserves_getInputRequired|]. intros arch.
  apply guarded_bind_quiet; [now apply (preserves_emit execs execs_passive)|]. intros _.
  apply guarded_bind_quiet; [apply preserves_observe|]. intros localVersions.
  apply guarded_bind_quiet; [apply (preserves_cleanDestination execs execs_passive)|]. intros _.
  apply guarded_bind_never.
  - destruct (Js.truthy _).
    { apply guarded_quiet.
      apply preserves_bind; [now apply (preserves_emit execs execs_passive) | intros _; apply preserves_ret]. }
    destruct (String.eqb "PreInstalled" source).
    { apply guarded_quiet.
      apply preserves_bind; [apply preserves_getVariable|].
      intros [directory|]; [|apply preserves_throw].
      apply preserves_bind; [now apply (preserves_emit execs execs_passive) | intros _; apply preserves_ret]. }
    destruct (String.eqb "AzureStorage" source').
    + apply guarded_bind_quiet; [now apply (preserves_emit execs execs_passive)|]. intros _.
      apply guarded_bind_quiet; [apply preserves_ret|]. intros fileNameAndPath.
      apply guarded_bind_quiet; [apply preserves_getInputRequired|]. intros endpoint.
      apply guarded_bind_quiet; [apply preserves_getInputRequired|]. intros account.
      apply guarded_bind_quiet; [apply preserves_getInputRequired|]. intros container.
      apply guarded_bind_quiet; [now apply (preserves_effect execs execs_passive)|]. intros _.
      apply guarded_bind_quiet; [now apply (preserves_emit execs execs_passive)|]. intros _.
      destruct fileNameAndPath as [file|];
        [|apply guarded_quiet, preserves_throw].
      apply guarded_bind_quiet; [apply preserves_getSupportedFileEnding|]. intros ending.
      apply guarded_bind_quiet; [apply preserves_pathJoin|]. intros extractSource.
      apply guarded_bind_never; [apply guarded_installJDK|].
      intros directory. apply neverUnsupported_ret.
    + apply guarded_bind_quiet; [now apply (preserves_emit execs execs_passive)|]. intros _.
      apply guarded_bind_quiet; [apply preserves_getInputRequired|]. intros jdkFile.
      apply guarded_bind_quiet; [apply preserves_getSupportedFileEnding|]. intros ending.
      apply guarded_bind_never; [apply guarded_installJDK|].
      intros directory. apply neverUnsupported_ret.
  - intros jdkDirectory. unfold prependPath.
    apply neverUnsupported_bind; [apply neverUnsupported_emit|]. intros _.
    apply neverUnsupported_bind; [apply neverUnsupported_emit|]. intros _.
    apply neverUnsupported_bind; [apply neverUnsupported_setVariable|]. intros _.
    apply neverUnsupported_bind; [apply neverUnsupported_setVariable|]. intros _.
    apply neverUnsupported_bind; [apply neverUnsupported_pathJoin|]. intros binDirectory.
    apply neverUnsupported_emit.
Qed.

(** C7.  The classifier returns the first entry of [supportedFileEndings]
    that the file name ends with, and throws the unsupported-extension
    error exactly when the name ends with none of them; it changes nothing.
    Whenever [getJava] ends in that error, no command has been executed:
    no [sudo], no [hdiutil], no [installer]. *)
Theorem getSupportedFileEnding_first_suffix (file : string) s :
  (∀ ending,
     getSupportedFileEnding file s = (Returned ending, s) ↔
     ∃ earlier later,
       supportedFileEndings = earlier ++ ending :: later
       ∧ Js.endsWith file ending = true
       ∧ Forall (λ e, Js.endsWith file e = false) earlier)
  ∧ (getSupportedFileEnding file s = (Thrown unsupportedFileExtension, s) ↔
     Forall (λ e, Js.endsWith file e = false) supportedFileEndings)
  ∧ (∀ versionSpec s',
       getJava versionSpec s = (Thrown unsupportedFileExtension, s') →
       execs (trace s') = execs (trace s)).
Proof.
  split; [|split].
  - intros ending. rewrite getSupportedFileEnding_run, <- find_first.
    destruct (List.find _ supportedFileEndings); split; congruence.
  - rewrite getSupportedFileEnding_run, <- find_nothing.
    destruct (List.find _ supportedFileEndings); split; congruence.
  - intros versionSpec s'. apply guarded_getJava.
Qed.

End Classifier.

Lemma getSupportedFileEnding_first_suffix_witness :
  let s := Demo.initial Demo.unsupportedArchive in
  getSupportedFileEnding "/downloads/jdk-11.exe" s
    = (Thrown unsupportedFileExtension, s)
  ∧ (getJava "11" s).1 = Thrown unsupportedFileExtension
  ∧ execs (trace (getJava "11" s).2) = [].
Proof.
  intros s.
  destruct (getSupportedFileEnding_first_suffix "/downloads/jdk-11.exe" s)
    as (_ & Hnone & Hquiet).
  split; [|split].
  - apply Hnone. vm_compute. repeat constructor.
  - vm_compute. reflexivity.
  - apply (Hquiet "11" (getJava "11" s).2). vm_compute. reflexivity.
Defined.

(** ** The disk-image flow *)

Section DiskImage.
Context {A : Agent}.
Implicit Types s : State A.

Lemma getVolumePath_run volumes s after :
  readdir A VOLUMES_FOLDER (os s) = Some after →
  getVolumePath volumes s =
  (match newEntries volumes after with
   | [volume] => Returned (Path.join [VOLUMES_FOLDER; volume])
   | _ => Thrown (LocError "UnsupportedDMGStructure" [])
   end, s).
Proof.
  intros Hafter. unfold getVolumePath.
  erewrite bind_returned by (apply readdirSync_some; exact Hafter).
  destruct (newEntries volumes after) as [|volume [|other rest]]; reflexivity.
Qed.

Lemma getPackagePath_run volumePath s entries :
  readdir A volumePath (os s) = Some entries →
  getPackagePath volumePath s =
  (match filter (λ file, Js.endsWith file ".pkg" = true) entries with
   | [] => Thrown (LocError "NoPKGFile" [])
   | [package] => Returned (Path.join [volumePath; package])
   | _ => Thrown (LocError "SeveralPKGFiles" [])
   end, s).
Proof.
  intros Hentries. unfold getPackagePath.
  erewrite bind_returned by (apply readdirSync_some; exact Hentries).
  destruct (filter _ entries) as [|package [|other rest]]; reflexivity.
Qed.

(** The disk-image branch of [installJDK], as the sequence of its steps. *)
Lemma installJDK_dmg sourceFile destination ext ver s before :
  platform A = "darwin" →
  readdir A VOLUMES_FOLDER (os s) = Some before →
  installJDK sourceFile ".dmg" destination ext ver s =
  (attach sourceFile ;;;
   volumePath <- getVolumePath (snapshot before) ;;
   pkgPath <- getPackagePath volumePath ;;
   jdkDirectory <- installPkg pkgPath ext ver ;;
   try_catch (detach volumePath) (λ error, task_error error) ;;;
   ret jdkDirectory) s.
Proof.
  intros Hplatform Hbefore. unfold installJDK. rewrite Hplatform.
  cbn [String.eqb Ascii.eqb Bool.eqb andb].
  erewrite bind_returned by (apply readdirSync_some; exact Hbefore).
  reflexivity.
Qed.

Lemma execs_afterAttach sourceFile s :
  execs (trace (afterAttach sourceFile s))
  = attachRunner A sourceFile (os s) :: execs (trace s).
Proof. reflexivity. Qed.

Lemma last_line val runner :
  Js.truthy val = true → last (args (line val runner)) = Some val.
Proof. intros H. unfold line. rewrite H. cbn [args]. apply last_snoc. Qed.

(** A [hdiutil attach] command line is never a package-installer one. *)
Lemma attachRunner_not_installer sourceFile pkgPath (o o' : OS A) :
  attachRunner A sourceFile o ≠ installerRunner A pkgPath o'.
Proof.
  intros H.
  assert (H1 := last_line ("attach " +:+ Js.quoted sourceFile)
                  (sudoRunner A "hdiutil" o) eq_refl).
  assert (H2 := last_line ("-package " +:+ Js.quoted pkgPath +:+ " -target /")
                  (sudoRunner A "installer" o') eq_refl).
  fold (attachRunner A sourceFile o) in H1.
  fold (installerRunner A pkgPath o') in H2.
  rewrite H, H2 in H1. discriminate.
Qed.

End DiskImage.

Section DiskImageClaims.
Context {A : Agent}.
Implicit Types s : State A.

Lemma attach_returned sourceFile s s1 :
  attach sourceFile s = (Returned tt, s1) →
  s1 = afterAttach sourceFile s
  ∧ execSucceeded (spawn A (attachRunner A sourceFile (os s)) (os s)).1 = true.
Proof.
  rewrite attach_run. cbv zeta.
  destruct (execSucceeded _); [|discriminate]. now intros [= <-].
Qed.

(** C5.  On macOS, when the disk image was attached and the volumes root
    shows no new entry, or more than one, [installJDK] throws the
    unsupported-DMG-structure error in the state the attach step left: the
    only command executed is the [hdiutil attach], and no package-installer
    command is among the commands run. *)
Theorem installJDK_unsupported_dmg_structure
    sourceFile destination ext ver s before after :
  platform A = "darwin" →
  readdir A VOLUMES_FOLDER (os s) = Some before →
  execSucceeded (spawn A (attachRunner A sourceFile (os s)) (os s)).1 = true →
  readdir A VOLUMES_FOLDER (os (afterAttach sourceFile s)) = Some after →
  List.length (dirDiff before after) ≠ 1 →
  installJDK sourceFile ".dmg" destination ext ver s
    = (Thrown (LocError "UnsupportedDMGStructure" []), afterAttach sourceFile s)
  ∧ execs (trace (afterAttach sourceFile s))
    = attachRunner A sourceFile (os s) :: execs (trace s)
  ∧ ∀ pkgPath o,
      installerRunner A pkgPath o ∈ execs (trace (afterAttach sourceFile s)) →
      installerRunner A pkgPath o ∈ execs (trace s).
Proof.
  intros Hplatform Hbefore Hattach Hafter Hdiff.
  split; [|split].
  - rewrite (installJDK_dmg _ _ _ _ _ _ Hplatform Hbefore).
    erewrite bind_returned
      by (rewrite attach_run; cbv zeta; rewrite Hattach; reflexivity).
    apply bind_thrown. rewrite (getVolumePath_run _ _ _ Hafter).
    fold (dirDiff before after).
    destruct (dirDiff before after) as [|volume [|other rest]];
      [reflexivity | now destruct Hdiff | reflexivity].
  - apply execs_afterAttach.
  - intros pkgPath o. rewrite execs_afterAttach.
    intros [Heq|Hin]%elem_of_cons; [|exact Hin].
    symmetry in Heq. now apply attachRunner_not_installer in Heq.
Qed.

(** C8.  [getPackagePath] returns the path of the package when the volume
    holds exactly one entry ending in [.pkg], throws the no-package error
    when it holds none and the several-packages error when it holds more.
    In the disk-image flow either error ends [installJDK] in the state left
    by the attach step: the installer has not been invoked. *)
Theorem getPackagePath_exactly_one volumePath s entries :
  readdir A volumePath (os s) = Some entries →
  let packages := filter (λ file, Js.endsWith file ".pkg" = true) entries in
  (∀ package, packages = [package] →
     getPackagePath volumePath s
       = (Returned (Path.join [volumePath; package]), s))
  ∧ (packages = [] →
     getPackagePath volumePath s = (Thrown (LocError "NoPKGFile" []), s))
  ∧ (2 ≤ List.length packages →
     getPackagePath volumePath s = (Thrown (LocError "SeveralPKGFiles" []), s))
  ∧ (List.length packages ≠ 1 →
     ∀ sourceFile destination ext ver s0 before,
       platform A = "darwin" →
       readdir A VOLUMES_FOLDER (os s0) = Some before →
       attach sourceFile s0 = (Returned tt, s) →
       getVolumePath (snapshot before) s = (Returned volumePath, s) →
       installJDK sourceFile ".dmg" destination ext ver s0
         = (Thrown (if Nat.eqb (List.length packages) 0
                    then LocError "NoPKGFile" []
                    else LocError "SeveralPKGFiles" []), s)
       ∧ execs (trace s) = attachRunner A sourceFile (os s0) :: execs (trace s0)
       ∧ ∀ pkgPath o,
           installerRunner A pkgPath o ∈ execs (trace s) →
           installerRunner A pkgPath o ∈ execs (trace s0)).
Proof.
  intros Hentries packages.
  assert (Hrun := getPackagePath_run _ _ _ Hentries). fold packages in Hrun.
  split; [|split; [|split]].
  - intros package Hone. now rewrite Hrun, Hone.
  - intros Hnone. now rewrite Hrun, Hnone.
  - intros Hmany. rewrite Hrun.
    destruct packages as [|package [|other rest]]; simpl in Hmany; [lia|lia|reflexivity].
  - intros Hlen sourceFile destination ext ver s0 before
      Hplatform Hbefore Hattach Hvolume.
    split; [|split].
    + rewrite (installJDK_dmg _ _ _ _ _ _ Hplatform Hbefore).
      erewrite bind_returned by exact Hattach.
      erewrite bind_returned by exact Hvolume.
      apply bind_thrown. rewrite Hrun.
      destruct packages as [|package [|other rest]];
        [reflexivity | now destruct Hlen | reflexivity].
    + apply attach_returned in Hattach as [-> _]. apply execs_afterAttach.
    + apply attach_returned in Hattach as [-> _].
      intros pkgPath o. rewrite execs_afterAttach.
      intros [Heq|Hin]%elem_of_cons; [|exact Hin].
      symmetry in Heq. now apply attachRunner_not_installer in Heq.
Qed.

(** C9.  In the disk-image flow, once [installPkg] has returned the JDK
    home, [installJDK] returns that same directory whether [detach] returns
    or throws; a thrown error is only written to the task log. *)
Theorem installJDK_detach_best_effort
    sourceFile destination ext ver s before s1 s2 s3 volumePath pkgPath
    jdkDirectory s4 detached s5 :
  platform A = "darwin" →
  readdir A VOLUMES_FOLDER (os s) = Some before →
  attach sourceFile s = (Returned tt, s1) →
  getVolumePath (snapshot before) s1 = (Returned volumePath, s2) →
  getPackagePath volumePath s2 = (Returned pkgPath, s3) →
  installPkg pkgPath ext ver s3 = (Returned jdkDirectory, s4) →
  detach volumePath s4 = (detached, s5) →
  installJDK sourceFile ".dmg" destination ext ver s
  = (Returned jdkDirectory,
     match detached with
     | Returned _ => s5
     | Thrown error => logged [LogError error] s5
     end).
Proof.
  intros Hplatform Hbefore Hattach Hvolume Hpackage Hinstall Hdetach.
  rewrite (installJDK_dmg _ _ _ _ _ _ Hplatform Hbefore).
  erewrite bind_returned by exact Hattach.
  erewrite bind_returned by exact Hvolume.
  erewrite bind_returned by exact Hpackage.
  erewrite bind_returned by exact Hinstall.
  unfold bind, try_catch. rewrite Hdetach.
  destruct detached as [[]|error]; reflexivity.
Qed.

End DiskImageClaims.

Lemma installJDK_unsupported_dmg_structure_witness :
  let s := Demo.initial Demo.noNewVolume in
  installJDK "/downloads/jdk-11.dmg" ".dmg" "/opt/java" "JAVA_HOME_11_x64" "11" s
  = (Thrown (LocError "UnsupportedDMGStructure" []),
     afterAttach "/downloads/jdk-11.dmg" s).
Proof.
  intros s.
  refine (proj1 (installJDK_unsupported_dmg_structure
                   (A:=Demo.agent Demo.noNewVolume)
                   "/downloads/jdk-11.dmg" "/opt/java" "JAVA_HOME_11_x64" "11" s
                   ["Macintosh HD"] ["Macintosh HD"] _ _ _ _ _)).
  - reflexivity.
  - reflexivity.
  - reflexivity.
  - reflexivity.
  - vm_compute. lia.
Defined.

Lemma getPackagePath_exactly_one_witness :
  let s0 := Demo.initial Demo.twoPackages in
  let s := afterAttach "/downloads/jdk-11.dmg" s0 in
  getPackagePath "/Volumes/JDK 11" s
    = (Thrown (LocError "SeveralPKGFiles" []), s)
  ∧ installJDK "/downloads/jdk-11.dmg" ".dmg" "/opt/java" "JAVA_HOME_11_x64" "11" s0
    = (Thrown (LocError "SeveralPKGFiles" []), s).
Proof.
  intros s0 s.
  destruct (getPackagePath_exactly_one (A:=Demo.agent Demo.twoPackages)
              "/Volumes/JDK 11" s ["JDK 11.pkg"; "JDK 11 docs.pkg"])
    as (_ & _ & Hmany & Hflow).
  - reflexivity.
  - split.
    + apply Hmany. vm_compute. lia.
    + refine (proj1 (Hflow _ "/downloads/jdk-11.dmg" "/opt/java"
                       "JAVA_HOME_11_x64" "11" s0 ["Macintosh HD"] _ _ _ _)).
      * vm_compute. lia.
      * reflexivity.
      * reflexivity.
      * vm_compute. reflexivity.
      * vm_compute. reflexivity.
Defined.

Lemma installJDK_detach_best_effort_witness :
  let s := Demo.initial Demo.detachFails in
  (installJDK "/downloads/jdk-11.dmg" ".dmg" "/opt/java" "JAVA_HOME_11_x64" "11" s).1
  = Returned "/Library/Java/JavaVirtualMachines/jdk-11.jdk/Contents/Home"
  ∧ (detach "/Volumes/JDK 11"
       (installPkg "/Volumes/JDK 11/JDK 11.pkg" "JAVA_HOME_11_x64" "11"
          (afterAttach "/downloads/jdk-11.dmg" s)).2).1
    = Thrown (ExecError
                {| toolPath := "sudo";
                   args := ["/usr/bin/hdiutil"; "detach " +:+ Js.quoted "/Volumes/JDK 11"] |}
                (Exited 16))
  ∧ head (trace (run s).2) = Some (SetResult Succeeded).
Proof.
  intros s.
  set (s1 := afterAttach "/downloads/jdk-11.dmg" s).
  set (s4 := (installPkg "/Volumes/JDK 11/JDK 11.pkg" "JAVA_HOME_11_x64" "11" s1).2).
  split; [|split].
  - rewrite (installJDK_detach_best_effort (A:=Demo.agent Demo.detachFails)
               "/downloads/jdk-11.dmg" "/opt/java" "JAVA_HOME_11_x64" "11" s
               ["Macintosh HD"] s1 s1 s1 "/Volumes/JDK 11"
               "/Volumes/JDK 11/JDK 11.pkg"
               "/Library/Java/JavaVirtualMachines/jdk-11.jdk/Contents/Home"
               s4 (detach "/Volumes/JDK 11" s4).1 (detach "/Volumes/JDK 11" s4).2).
    + reflexivity.
    + reflexivity.
    + reflexivity.
    + vm_compute. reflexivity.
    + vm_compute. reflexivity.
    + vm_compute. reflexivity.
    + vm_compute. reflexivity.
    + vm_compute. reflexivity.
  - vm_compute. reflexivity.
  - vm_compute. reflexivity.
Defined.

(** ** The claims about the package install flow *)

Section InstallPkgClaims.
Context {A : Agent}.
Implicit Types s : State A.

(** C3.  When the package exists and the JDK root shows exactly one new
    entry [X] after the installer ran, [installPkg] returns
    [path.join(JDK_FOLDER, X, 'Contents/Home')]; for an entry name as a
    directory listing gives it, that is the string
    [/Library/Java/JavaVirtualMachines/X/Contents/Home]. *)
Theorem installPkg_single_new_entry pkgPath ext ver s before after X :
  pathExists A pkgPath (os s) = true →
  readdir A JDK_FOLDER (os s) = Some before →
  readdir A JDK_FOLDER (installedSystem A pkgPath (os s)) = Some after →
  dirDiff before after = [X] →
  (installPkg pkgPath ext ver s).1
  = Returned (Path.join [JDK_FOLDER; X; JDK_HOME_FOLDER])
  ∧ (Path.plainName X = true →
     (installPkg pkgPath ext ver s).1
     = Returned (JDK_FOLDER +:+ "/" +:+ X +:+ "/" +:+ JDK_HOME_FOLDER)).
Proof.
  intros Hexists Hbefore Hafter Hdiff.
  rewrite (installPkg_run _ _ _ _ _ _ Hexists Hbefore Hafter).
  cbv zeta. rewrite Hdiff. split; [reflexivity|].
  intros Hplain. cbn [fst]. now rewrite (join_jdk_home _ Hplain).
Qed.

(** C2.  When the JDK root shows no new entry after the installer ran,
    [installPkg] looks up the variable [JAVA_HOME_<version>_<arch>]: it
    returns the value of the variable when it is set, and throws the
    not-preinstalled error only when it is not. *)
Theorem installPkg_no_new_entry pkgPath versionSpec arch s before after :
  pathExists A pkgPath (os s) = true →
  readdir A JDK_FOLDER (os s) = Some before →
  readdir A JDK_FOLDER (installedSystem A pkgPath (os s)) = Some after →
  dirDiff before after = [] →
  (installPkg pkgPath (extendedJavaHomeName versionSpec arch) versionSpec s).1
  = match vars s !! extendedJavaHomeName versionSpec arch with
    | Some directory => Returned directory
    | None => Thrown (LocError "JavaNotPreinstalled" [versionSpec])
    end.
Proof.
  intros Hexists Hbefore Hafter Hdiff.
  rewrite (installPkg_run _ _ _ _ _ _ Hexists Hbefore Hafter).
  cbv zeta. rewrite Hdiff.
  now destruct (vars s !! extendedJavaHomeName versionSpec arch).
Qed.

(** C1, as the code has it.  When the JDK root shows more than one new
    entry after the installer ran, [installPkg] does not fail: it returns
    the home folder of the first new entry of the second listing. *)
Theorem installPkg_several_new_entries
    pkgPath ext ver s before after first second others :
  pathExists A pkgPath (os s) = true →
  readdir A JDK_FOLDER (os s) = Some before →
  readdir A JDK_FOLDER (installedSystem A pkgPath (os s)) = Some after →
  dirDiff before after = first :: second :: others →
  (installPkg pkgPath ext ver s).1
  = Returned (Path.join [JDK_FOLDER; first; JDK_HOME_FOLDER]).
Proof.
  intros Hexists Hbefore Hafter Hdiff.
  rewrite (installPkg_run _ _ _ _ _ _ Hexists Hbefore Hafter).
  cbv zeta. now rewrite Hdiff.
Qed.

(** C6, as the code has it.  [runPkgInstaller] returns normally whatever
    happens to the installer: a process that cannot be started and a
    process that exits with an error are both caught and noted in the debug
    log.  [installPkg] then lists the JDK root again, and its result is
    decided by the difference of the two listings alone. *)
Theorem runPkgInstaller_never_fatal pkgPath s :
  runPkgInstaller pkgPath s = (Returned tt, afterInstaller pkgPath s)
  ∧ trace (afterInstaller pkgPath s)
    = (if execSucceeded (spawn A (installerRunner A pkgPath (os s)) (os s)).1
       then [] else [Debug "Failed to install pkg file"])
      ++ Exec (installerRunner A pkgPath (os s)) :: trace s
  ∧ ∀ ext ver before after,
      pathExists A pkgPath (os s) = true →
      readdir A JDK_FOLDER (os s) = Some before →
      readdir A JDK_FOLDER (installedSystem A pkgPath (os s)) = Some after →
      (installPkg pkgPath ext ver s).1
      = match dirDiff before after with
        | [] =>
            match vars s !! ext with
            | Some directory => Returned directory
            | None => Thrown (LocError "JavaNotPreinstalled" [ver])
            end
        | first :: _ => Returned (Path.join [JDK_FOLDER; first; JDK_HOME_FOLDER])
        end.
Proof.
  split; [|split].
  - apply runPkgInstaller_run.
  - unfold afterInstaller. destruct (execSucceeded _); reflexivity.
  - intros ext ver before after Hexists Hbefore Hafter.
    rewrite (installPkg_run _ _ _ _ _ _ Hexists Hbefore Hafter). cbv zeta.
    destruct (dirDiff before after); [|reflexivity].
    now destruct (vars s !! ext).
Qed.

End InstallPkgClaims.

Lemma installPkg_single_new_entry_witness :
  (installPkg "/downloads/jdk-11.pkg" "JAVA_HOME_11_x64" "11"
     (Demo.initial Demo.onePackage)).1
  = Returned "/Library/Java/JavaVirtualMachines/jdk-11.jdk/Contents/Home".
Proof.
  refine (proj2 (installPkg_single_new_entry (A:=Demo.agent Demo.onePackage)
                   "/downloads/jdk-11.pkg" "JAVA_HOME_11_x64" "11"
                   (Demo.initial Demo.onePackage)
                   ["jdk-8.jdk"] ["jdk-8.jdk"; "jdk-11.jdk"] "jdk-11.jdk"
                   _ _ _ _) _).
  - reflexivity.
  - reflexivity.
  - reflexivity.
  - vm_compute. reflexivity.
  - reflexivity.
Defined.

Lemma installPkg_no_new_entry_witness :
  (installPkg "/downloads/jdk-11.pkg" "JAVA_HOME_11_x64" "11"
     (Demo.initial Demo.installerMissing)).1
  = Returned "/Library/Java/JavaVirtualMachines/jdk-11.jdk/Contents/Home"
  ∧ (installPkg "/downloads/jdk-11.pkg" "JAVA_HOME_11_x64" "11"
       (Demo.initial Demo.installerNoOp)).1
    = Thrown (LocError "JavaNotPreinstalled" ["11"]).
Proof.
  split.
  - apply (installPkg_no_new_entry (A:=Demo.agent Demo.installerMissing)
             "/downloads/jdk-11.pkg" "11" "x64"
             (Demo.initial Demo.installerMissing) ["jdk-8.jdk"] ["jdk-8.jdk"]).
    + reflexivity.
    + reflexivity.
    + reflexivity.
    + vm_compute. reflexivity.
  - apply (installPkg_no_new_entry (A:=Demo.agent Demo.installerNoOp)
             "/downloads/jdk-11.pkg" "11" "x64"
             (Demo.initial Demo.installerNoOp) ["jdk-8.jdk"] ["jdk-8.jdk"]).
    + reflexivity.
    + reflexivity.
    + reflexivity.
    + vm_compute. reflexivity.
Defined.

Lemma installPkg_several_new_entries_witness :
  (installPkg "/downloads/jdk-11.pkg" "JAVA_HOME_11_x64" "11"
     (Demo.initial Demo.twoNewJdks)).1
  = Returned "/Library/Java/JavaVirtualMachines/jdk-11.jdk/Contents/Home".
Proof.
  apply (installPkg_several_new_entries (A:=Demo.agent Demo.twoNewJdks)
           "/downloads/jdk-11.pkg" "JAVA_HOME_11_x64" "11"
           (Demo.initial Demo.twoNewJdks)
           ["jdk-8.jdk"] ["jdk-8.jdk"; "jdk-11.jdk"; "jdk-11-jre.jdk"]
           "jdk-11.jdk" "jdk-11-jre.jdk" []).
  - reflexivity.
  - reflexivity.
  - reflexivity.
  - vm_compute. reflexivity.
Defined.

(** C1 as the spec states it fails: two new entries in the JDK root, and
    the install resolves to the first of them; the task succeeds. *)
Lemma installPkg_ambiguous_counterexample :
  let s := Demo.initial Demo.twoNewJdks in
  let result := (installPkg "/downloads/jdk-11.pkg" "JAVA_HOME_11_x64" "11" s).1 in
  readdir (Demo.agent Demo.twoNewJdks) JDK_FOLDER (os s) = Some ["jdk-8.jdk"]
  ∧ readdir (Demo.agent Demo.twoNewJdks) JDK_FOLDER
      (installedSystem (Demo.agent Demo.twoNewJdks) "/downloads/jdk-11.pkg" (os s))
    = Some ["jdk-8.jdk"; "jdk-11.jdk"; "jdk-11-jre.jdk"]
  ∧ dirDiff ["jdk-8.jdk"] ["jdk-8.jdk"; "jdk-11.jdk"; "jdk-11-jre.jdk"]
    = ["jdk-11.jdk"; "jdk-11-jre.jdk"]
  ∧ result
    = Returned "/Library/Java/JavaVirtualMachines/jdk-11.jdk/Contents/Home"
  ∧ (¬ ∃ error, result = Thrown error)
  ∧ head (trace (run s).2) = Some (SetResult Succeeded).
Proof.
  intros s result.
  assert (Hresult : result
    = Returned "/Library/Java/JavaVirtualMachines/jdk-11.jdk/Contents/Home")
    by (vm_compute; reflexivity).
  repeat split; try (vm_compute; reflexivity).
  intros [error Herror]. rewrite Hresult in Herror. discriminate.
Qed.

Lemma runPkgInstaller_never_fatal_witness :
  let s := Demo.initial Demo.installerNoOp in
  (spawn (Demo.agent Demo.installerNoOp)
     (installerRunner (Demo.agent Demo.installerNoOp) "/downloads/jdk-11.pkg" (os s))
     (os s)).1 = Exited 1
  ∧ (runPkgInstaller "/downloads/jdk-11.pkg" s).1 = Returned tt
  ∧ (installPkg "/downloads/jdk-11.pkg" "JAVA_HOME_11_x64" "11" s).1
    = Thrown (LocError "JavaNotPreinstalled" ["11"]).
Proof.
  intros s.
  destruct (runPkgInstaller_never_fatal (A:=Demo.agent Demo.installerNoOp)
              "/downloads/jdk-11.pkg" s) as (Hrun & _ & Hdiff).
  split; [reflexivity|]. split.
  - now rewrite Hrun.
  - rewrite (Hdiff "JAVA_HOME_11_x64" "11" ["jdk-8.jdk"] ["jdk-8.jdk"]);
      [vm_compute; reflexivity | reflexivity | reflexivity | reflexivity].
Defined.

(** C6 as the spec states it fails: the installer cannot be started, and
    the install still resolves (to the JDK registered earlier); the task
    succeeds. *)
Lemma runPkgInstaller_launch_failure_counterexample :
  let s := Demo.initial Demo.installerMissing in
  (spawn (Demo.agent Demo.installerMissing)
     (installerRunner (Demo.agent Demo.installerMissing) "/downloads/jdk-11.pkg" (os s))
     (os s)).1 = SpawnFailed
  ∧ (runPkgInstaller "/downloads/jdk-11.pkg" s).1 = Returned tt
  ∧ (installPkg "/downloads/jdk-11.pkg" "JAVA_HOME_11_x64" "11" s).1
    = Returned "/Library/Java/JavaVirtualMachines/jdk-11.jdk/Contents/Home"
  ∧ head (trace (run s).2) = Some (SetResult Succeeded).
Proof. repeat split; vm_compute; reflexivity. Qed.

(** ** Publishing the JDK home *)

Section Publishing.
Context {A : Agent}.
Implicit Types s : State A.

Lemma unassigning_exec runner : unassigning (exec (A:=A) runner).
Proof. intros s r s'. rewrite exec_run. now intros [= <- <-]. Qed.

Lemma unassigning_attach sourceFile : unassigning (attach (A:=A) sourceFile).
Proof. intros s r s'. rewrite attach_run. now intros [= <- <-]. Qed.

Lemma unassigning_detach volumePath : unassigning (detach (A:=A) volumePath).
Proof. intros s r s'. rewrite detach_run. now intros [= <- <-]. Qed.

Lemma unassigning_runPkgInstaller pkgPath :
  unassigning (runPkgInstaller (A:=A) pkgPath).
Proof.
  intros s r s'. rewrite runPkgInstaller_run. intros [= <- <-].
  unfold afterInstaller. now destruct (execSucceeded _).
Qed.

Lemma unassigning_getVolumePath volumes :
  unassigning (getVolumePath (A:=A) volumes).
Proof.
  unfold getVolumePath. apply preserves_bind; [apply preserves_readdirSync|].
  intros entries. cbv zeta.
  destruct (negb _); [apply preserves_throw | apply preserves_pathJoin].
Qed.

Lemma unassigning_getPackagePath volumePath :
  unassigning (getPackagePath (A:=A) volumePath).
Proof.
  unfold getPackagePath. apply preserves_bind; [apply preserves_readdirSync|].
  intros entries. cbv zeta. destruct (Nat.eqb _ 1); [apply preserves_pathJoin|].
  destruct (Nat.eqb _ 0); apply preserves_throw.
Qed.

Lemma unassigning_installPkg pkgPath ext ver :
  unassigning (installPkg (A:=A) pkgPath ext ver).
Proof.
  unfold installPkg, existsSync, console_log.
  apply preserves_bind; [apply preserves_observe|].
  intros found. destruct (negb found); [apply preserves_throw|].
  apply preserves_bind;
    [now apply (preserves_emit assignments assignments_passive)|]. intros _.
  apply preserves_bind; [apply preserves_readdirSync|]. intros before. cbv zeta.
  apply preserves_bind; [apply unassigning_runPkgInstaller|]. intros _.
  apply preserves_bind; [apply preserves_readdirSync|]. intros after.
  destruct (Nat.eqb _ 0).
  - apply preserves_bind; [apply preserves_getVariable|].
    intros [directory|]; [|apply preserves_throw].
    apply preserves_bind;
      [now apply (preserves_emit assignments assignments_passive)|]. intros _.
    apply preserves_bind;
      [now apply (preserves_emit assignments assignments_passive)|]. intros _.
    apply preserves_ret.
  - apply preserves_bind;
      [now apply (preserves_emit assignments assignments_passive)|]. intros _.
    apply preserves_pathJoin.
Qed.

Lemma unassigning_installJDK sourceFile fileExtension destination ext ver :
  unassigning (installJDK (A:=A) sourceFile fileExtension destination ext ver).
Proof.
  unfold installJDK, task_error, unzipJavaDownload.
  destruct (String.eqb fileExtension ".dmg" && _).
  - apply preserves_bind; [apply preserves_readdirSync|]. intros before. cbv zeta.
    apply preserves_bind; [apply unassigning_attach|]. intros _.
    apply preserves_bind; [apply unassigning_getVolumePath|]. intros volumePath.
    apply preserves_bind; [apply unassigning_getPackagePath|]. intros pkgPath.
    apply preserves_bind; [apply unassigning_installPkg|]. intros jdkDirectory.
    apply preserves_bind; [|intros _; apply preserves_ret].
    apply preserves_try_catch; [apply unassigning_detach|].
    intros e. now apply (preserves_emit assignments assignments_passive).
  - destruct (String.eqb fileExtension ".pkg" && _).
    + apply unassigning_installPkg.
    + now apply (preserves_effect assignments assignments_passive).
Qed.

Lemma resolving_bind {T} (m : M A T) (k : T → M A (option string)) :
  (∀ x, resolving (k x)) → resolving (bind m k).
Proof.
  intros Hk s value s' [(x & s1 & _ & H2)|(e & _ & [=])]%bind_inv.
  exact (Hk _ _ _ _ H2).
Qed.

Lemma resolving_ret directory : resolving (ret (A:=A) (Some directory)).
Proof. intros s value s' [= <- _]. eauto. Qed.

Lemma resolving_throw e : resolving (throw (A:=A) e).
Proof. intros s value s'. discriminate. Qed.

Lemma getInputRequired_inv name s r s' :
  getInputRequired name s = (r, s') → s' = s.
Proof.
  unfold getInputRequired. destruct (inputs A !! name) as [v|].
  - destruct (Js.truthy v); now intros [= _ <-].
  - now intros [= _ <-].
Qed.

(** Every branch of [getJava] but the tool-cache one publishes the two
    variables exactly when it resolved a directory, and both hold that
    directory; when it throws, no variable has been set. *)
Lemma getJava_publishes_resolved versionSpec s r s' :
  Js.truthy (evaluateVersions A (localToolVersions A "Java" (os s)) versionSpec)
    = false →
  getJava versionSpec s = (r, s') →
  match r with
  | Returned _ =>
      ∃ arch directory,
        assignments (trace s')
        = (extendedJavaHomeName versionSpec arch, Some directory)
            :: ("JAVA_HOME", Some directory) :: assignments (trace s)
  | Thrown _ => assignments (trace s') = assignments (trace s)
  end.
Proof.
  intros Hcache. unfold getJava.
  intros [(source & s1 & H1 & H)|(e & H1 & ->)]%bind_inv;
    [|exact (preserves_getInputRequired _ _ _ _ _ H1)].
  apply getInputRequired_inv in H1 as ->. revert H.
  intros [(source' & s1 & H1 & H)|(e & H1 & ->)]%bind_inv;
    [|exact (preserves_getInputRequired _ _ _ _ _ H1)].
  apply getInputRequired_inv in H1 as ->. revert H.
  intros [(extractLocation & s1 & H1 & H)|(e & H1 & ->)]%bind_inv;
    [|exact (preserves_getInputRequired _ _ _ _ _ H1)].
  apply getInputRequired_inv in H1 as ->. revert H.
  intros [(clean & s1 & H1 & H)|(e & H1 & _)]%bind_inv; [|discriminate].
  injection H1 as _ <-. revert H.
  intros [(arch & s1 & H1 & H)|(e & H1 & ->)]%bind_inv;
    [|exact (preserves_getInputRequired _ _ _ _ _ H1)].
  apply getInputRequired_inv in H1 as ->. revert H.
  intros [(u & s1 & H1 & H)|(e & H1 & _)]%bind_inv; [|discriminate].
  injection H1 as _ <-. revert H.
  intros [(localVersions & s1 & H1 & H)|(e & H1 & _)]%bind_inv; [|discriminate].
  injection H1 as <- <-. cbn [os] in H. rewrite Hcache in H. revert H.
  intros [(u' & s2 & H2 & H)|(e & H2 & ->)]%bind_inv;
    [|exact (preserves_cleanDestination assignments assignments_passive
               _ _ _ _ _ H2)].
  apply (preserves_cleanDestination assignments assignments_passive) in H2.
  cbn [trace assignments] in H2. rewrite <- H2. clear H2 u u'.
  match type of H with
  | bind ?branch _ _ = _ =>
      assert (Hquiet : unassigning branch);
      [|assert (Hsome : resolving branch)]
  end.
  { unfold console_log, getInputOptional, downloadArtifacts, sleepFor,
      buildFilePath.
    destruct (String.eqb "PreInstalled" source).
    { apply preserves_bind; [apply preserves_getVariable|].
      intros [directory|]; [|apply preserves_throw].
      apply preserves_bind;
        [now apply (preserves_emit assignments assignments_passive)|].
      intros _. apply preserves_ret. }
    destruct (String.eqb "AzureStorage" source').
    - apply preserves_bind;
        [now apply (preserves_emit assignments assignments_passive)|]. intros _.
      apply preserves_bind; [apply preserves_ret|]. intros fileNameAndPath.
      apply preserves_bind; [apply preserves_getInputRequired|]. intros endpoint.
      apply preserves_bind; [apply preserves_getInputRequired|]. intros account.
      apply preserves_bind; [apply preserves_getInputRequired|]. intros container.
      apply preserves_bind;
        [now apply (preserves_effect assignments assignments_passive)|]. intros _.
      apply preserves_bind;
        [now apply (preserves_emit assignments assignments_passive)|]. intros _.
      destruct fileNameAndPath as [file|]; [|apply preserves_throw].
      apply preserves_bind; [apply preserves_getSupportedFileEnding|]. intros ending.
      apply preserves_bind; [apply preserves_pathJoin|]. intros extractSource.
      apply preserves_bind; [apply unassigning_installJDK|].
      intros directory. apply preserves_ret.
    - apply preserves_bind;
        [now apply (preserves_emit assignments assignments_passive)|]. intros _.
      apply preserves_bind; [apply preserves_getInputRequired|]. intros jdkFile.
      apply preserves_bind; [apply preserves_getSupportedFileEnding|]. intros ending.
      apply preserves_bind; [apply unassigning_installJDK|].
      intros directory. apply preserves_ret. }
  { destruct (String.eqb "PreInstalled" source).
    { apply resolving_bind. intros [directory|]; [|apply resolving_throw].
      apply resolving_bind. intros _. apply resolving_ret. }
    destruct (String.eqb "AzureStorage" source').
    - do 7 (apply resolving_bind; intros ?).
      match goal with
      | |- resolving (match ?f with _ => _ end) =>
          destruct f; [|apply resolving_throw]
      end.
      do 3 (apply resolving_bind; intros ?). apply resolving_ret.
    - do 4 (apply resolving_bind; intros ?). apply resolving_ret. }
  revert H.
  intros [(jdkDirectory & s3 & H3 & H)|(e & H3 & ->)]%bind_inv.
  - destruct (Hsome _ _ _ H3) as [directory ->].
    apply Hquiet in H3. rewrite <- H3.
    injection H as <- <-. exists arch, directory. reflexivity.
  - exact (Hquiet _ _ _ H3).
Qed.

End Publishing.

Section CacheBranch.
Context {A : Agent}.
Implicit Types s : State A.

(** The tool-cache branch never assigns [jdkDirectory]: once the inputs are
    read and the destination is cleaned, [getJava] sets both variables to
    [undefined] and then throws in [path.join]. *)
Lemma getJava_cache_hit versionSpec s r s' :
  Js.truthy (evaluateVersions A (localToolVersions A "Java" (os s)) versionSpec)
    = true →
  getJava versionSpec s = (r, s') →
  (∃ error, r = Thrown error)
  ∧ (assignments (trace s') = assignments (trace s)
     ∨ ∃ arch,
         r = Thrown (TypeError "path")
         ∧ assignments (trace s')
           = (extendedJavaHomeName versionSpec arch, None)
               :: ("JAVA_HOME", None) :: assignments (trace s)).
Proof.
  intros Hcache. unfold getJava.
  intros [(source & s1 & H1 & H)|(e & H1 & ->)]%bind_inv;
    [|split; [eauto | left; exact (preserves_getInputRequired _ _ _ _ _ H1)]].
  apply getInputRequired_inv in H1 as ->. revert H.
  intros [(source' & s1 & H1 & H)|(e & H1 & ->)]%bind_inv;
    [|split; [eauto | left; exact (preserves_getInputRequired _ _ _ _ _ H1)]].
  apply getInputRequired_inv in H1 as ->. revert H.
  intros [(extractLocation & s1 & H1 & H)|(e & H1 & ->)]%bind_inv;
    [|split; [eauto | left; exact (preserves_getInputRequired _ _ _ _ _ H1)]].
  apply getInputRequired_inv in H1 as ->. revert H.
  intros [(clean & s1 & H1 & H)|(e & H1 & _)]%bind_inv; [|discriminate].
  injection H1 as _ <-. revert H.
  intros [(arch & s1 & H1 & H)|(e & H1 & ->)]%bind_inv;
    [|split; [eauto | left; exact (preserves_getInputRequired _ _ _ _ _ H1)]].
  apply getInputRequired_inv in H1 as ->. revert H.
  intros [(u & s1 & H1 & H)|(e & H1 & _)]%bind_inv; [|discriminate].
  injection H1 as _ <-. revert H.
  intros [(localVersions & s1 & H1 & H)|(e & H1 & _)]%bind_inv; [|discriminate].
  injection H1 as <- <-. cbn [os] in H. rewrite Hcache in H. revert H.
  intros [(u' & s2 & H2 & H)|(e & H2 & ->)]%bind_inv;
    [|split; [eauto | left;
        exact (preserves_cleanDestination assignments assignments_passive
                 _ _ _ _ _ H2)]].
  apply (preserves_cleanDestination assignments assignments_passive) in H2.
  cbn [trace assignments] in H2. rewrite <- H2.
  injection H as <- <-. split; [eauto|]. right. exists arch. split; reflexivity.
Qed.

End CacheBranch.

(** C4 at the tool-cache branch.  Java 11 is in the local cache: the task
    sets [JAVA_HOME] and [JAVA_HOME_11_x64] to [undefined] (the task
    library stores the empty string) and then fails with the [TypeError] of
    [path.join]. *)
Theorem run_cache_hit_publishes_undefined :
  let final := (run (Demo.initial Demo.cacheHit)).2 in
  trace final
  = [SetResult (Failed (TypeError "path")); LogError (TypeError "path");
     SetVariable "JAVA_HOME_11_x64" None; SetVariable "JAVA_HOME" None;
     Console "SetExtendedJavaHome" ["JAVA_HOME_11_x64"; "undefined"];
     Console "SetJavaHome" ["undefined"];
     Console "Info_ResolvedToolFromCache" ["11"];
     Debug "Trying to get tool from local cache first"]
  ∧ vars final !! "JAVA_HOME" = Some ""
  ∧ vars final !! "JAVA_HOME_11_x64" = Some "".
Proof. repeat split; vm_compute; reflexivity. Qed.

(** ** The end-to-end scenarios of the specification *)

Example scenario_A_disk_image :
  let final := (run (Demo.initial Demo.diskImage)).2 in
  head (trace final) = Some (SetResult Succeeded)
  ∧ vars final !! "JAVA_HOME"
    = Some "/Library/Java/JavaVirtualMachines/jdk-11.jdk/Contents/Home"
  ∧ vars final !! "JAVA_HOME_11_x64"
    = Some "/Library/Java/JavaVirtualMachines/jdk-11.jdk/Contents/Home"
  ∧ List.length (execs (trace final)) = 3.
Proof. repeat split; vm_compute; reflexivity. Qed.

Example scenario_B_tarball :
  let final := (run (Demo.initial Demo.tarball)).2 in
  head (trace final) = Some (SetResult Succeeded)
  ∧ vars final !! "JAVA_HOME" = Some "/opt/java/jdk"
  ∧ execs (trace final) = [].
Proof. repeat split; vm_compute; reflexivity. Qed.

Example scenario_C_unsupported :
  trace (run (Demo.initial Demo.unsupportedArchive)).2
  = [SetResult (Failed unsupportedFileExtension);
     LogError unsupportedFileExtension;
     Console "RetrievingJdkFromLocalPath" [];
     Debug "Trying to get tool from local cache first"].
Proof. vm_compute. reflexivity. Qed.

Example scenario_D_two_packages :
  let final := (run (Demo.initial Demo.twoPackages)).2 in
  head (trace final) = Some (SetResult (Failed (LocError "SeveralPKGFiles" [])))
  ∧ execs (trace final)
    = [attachRunner (Demo.agent Demo.twoPackages) "/downloads/jdk-11.dmg"
         Demo.initialWorld]
  ∧ assignments (trace final) = [].
Proof. repeat split; vm_compute; reflexivity. Qed.

(** ** The classifier on sample names *)

Example classify_tar_gz :
  (getSupportedFileEnding "/downloads/jdk-11.tar.gz"
     (Demo.initial Demo.tarball)).1 = Returned ".tar.gz".
Proof. vm_compute. reflexivity. Qed.

Example classify_upper_case :
  (getSupportedFileEnding "/downloads/JDK-11.ZIP"
     (Demo.initial Demo.tarball)).1 = Thrown unsupportedFileExtension.
Proof. vm_compute. reflexivity. Qed.

Example classify_suffix_only :
  (getSupportedFileEnding "/downloads/jdk.zip.part"
     (Demo.initial Demo.tarball)).1 = Thrown unsupportedFileExtension.
Proof. vm_compute. reflexivity. Qed.

(** * Further properties of the file *)

(** ** The classifier on recognised names *)

Lemma endsWith_self_append (p e : string) : Js.endsWith (p +:+ e) e = true.
Proof. apply endsWith_suffix. now exists p. Qed.

(** A search string found at the end of [p +:+ e] overlaps [e]: one of the
    two is a suffix of the other. *)
Lemma endsWith_overlap (p e e' : string) :
  Js.endsWith (p +:+ e) e' = true →
  Js.endsWith e e' = true ∨ Js.endsWith e' e = true.
Proof.
  intros H.
  destruct (Nat.le_gt_cases (String.length e') (String.length e)) as [Hle|Hgt].
  - left. now rewrite endsWith_append in H.
  - right. apply endsWith_suffix in H as [q Hq].
    assert (Hlen := f_equal String.length Hq). rewrite !length_append in Hlen.
    assert (He : substring (String.length p) (String.length e) (p +:+ e) = e)
      by (rewrite substring_skip; apply substring_full).
    rewrite Hq in He.
    replace (String.length p)
      with (String.length q + (String.length e' - String.length e)) in He by lia.
    rewrite substring_skip_more in He.
    unfold Js.endsWith.
    destruct (Nat.leb_spec (String.length e) (String.length e')); [|lia].
    rewrite He. apply String.eqb_refl.
Qed.

Lemma endsWith_append_false (p e e' : string) :
  Js.endsWith e e' = false → Js.endsWith e' e = false →
  Js.endsWith (p +:+ e) e' = false.
Proof.
  intros H1 H2. destruct (Js.endsWith (p +:+ e) e') eqn:E; [|reflexivity].
  apply endsWith_overlap in E as [E|E]; congruence.
Qed.

(** X1.  Every name that is some text followed by a supported ending is
    classified as that ending: no entry of the list hides a later one. *)
Theorem getSupportedFileEnding_recognizes {A} (p ending : string) (s : State A) :
  In ending supportedFileEndings →
  getSupportedFileEnding (p +:+ ending) s = (Returned ending, s).
Proof.
  intros Hin. rewrite getSupportedFileEnding_run.
  unfold supportedFileEndings in *. simpl in Hin.
  destruct Hin as [<-|[<-|[<-|[<-|[<-|[<-|[]]]]]]]; cbn [List.find];
    repeat first
      [ rewrite endsWith_self_append
      | rewrite endsWith_append_false by reflexivity ];
    reflexivity.
Qed.

Lemma getSupportedFileEnding_recognizes_witness :
  getSupportedFileEnding ("/downloads/openjdk-11.0.2" +:+ ".tar.gz")
    (Demo.initial Demo.tarball)
  = (Returned ".tar.gz", Demo.initial Demo.tarball).
Proof.
  apply (getSupportedFileEnding_recognizes (A:=Demo.agent Demo.tarball)).
  vm_compute. tauto.
Defined.

Lemma scanEndings_find {A} (file : string) (endings : list string) (s : State A) :
  Earlier.scanEndings file endings s =
  (match List.find (λ ending, Js.endsWith file ending) endings with
   | Some ending => Returned ending
   | None => Thrown unsupportedFileExtension
   end, s).
Proof.
  induction endings as [|ending rest IH]; [reflexivity|].
  cbn [Earlier.scanEndings List.find].
  destruct (Js.endsWith file ending); [reflexivity | exact IH].
Qed.

(** X2.  The loop of the earlier classifier and the [Array.find] of the current
    one classify every name alike, error included. *)
Theorem getSupportedFileEnding_same_as_earlier {A} (file : string) (s : State A) :
  getSupportedFileEnding file s = Earlier.getSupportedFileEnding file s.
Proof.
  unfold Earlier.getSupportedFileEnding.
  now rewrite getSupportedFileEnding_run, scanEndings_find.
Qed.

(** ** The file name of a download *)

Lemma split_by_nonempty (sep : ascii → bool) (text : string) :
  Js.split_by sep text ≠ [].
Proof.
  destruct text as [|c rest]; [discriminate|]. cbn [Js.split_by].
  destruct (sep c); [discriminate|]. now destruct (Js.split_by sep rest).
Qed.

Lemma split_by_no_separator (sep : ascii → bool) (name : string) :
  forallb (λ a, negb (sep a)) (list_ascii_of_string name) = true →
  Js.split_by sep name = [name].
Proof.
  induction name as [|a name IH]; [reflexivity|].
  cbn. intros [Ha Hname]%andb_prop.
  apply negb_true_iff in Ha. now rewrite Ha, (IH Hname).
Qed.

Lemma split_by_after_separator (sep : ascii → bool) (dir : string) (c : ascii)
    (rest : string) :
  sep c = true →
  ∃ piece pieces,
    Js.split_by sep (dir +:+ String c rest)
    = (piece :: pieces) ++ Js.split_by sep rest.
Proof.
  intros Hc. induction dir as [|a dir (piece & pieces & IH)].
  - exists "", []. change ("" +:+ String c rest) with (String c rest).
    cbn [Js.split_by]. now rewrite Hc.
  - rewrite append_cons. cbn [Js.split_by]. rewrite IH. destruct (sep a).
    + now exists "", (piece :: pieces).
    + now exists (String a piece), pieces.
Qed.

(** X3.  [buildFilePath] keeps only what follows the last [/] or [\] of the
    name: a download named with folders lands directly in the root, under
    the same path as the bare file name; the file ending is not used. *)
Theorem buildFilePath_last_component {A}
    (root ending dir name : string) (c : ascii) (s : State A) :
  isPathSeparator c = true →
  forallb (λ a, negb (isPathSeparator a)) (list_ascii_of_string name) = true →
  buildFilePath root ending (dir +:+ String c name) s
    = (Returned (Path.join [root; name]), s)
  ∧ buildFilePath root ending name s = (Returned (Path.join [root; name]), s).
Proof.
  intros Hc Hname. unfold buildFilePath, Js.pop. fold isPathSeparator.
  rewrite (split_by_no_separator _ _ Hname).
  destruct (split_by_after_separator isPathSeparator dir c name Hc)
    as (piece & pieces & ->).
  rewrite (split_by_no_separator _ _ Hname).
  rewrite last_app. cbn [last]. split; reflexivity.
Qed.

Lemma buildFilePath_last_component_witness :
  buildFilePath "/opt/java" ".zip" ("jdks/11" +:+ String "/" "jdk-11.zip")
    (Demo.initial Demo.tarball)
  = (Returned "/opt/java/jdk-11.zip", Demo.initial Demo.tarball).
Proof.
  refine (proj1 (buildFilePath_last_component (A:=Demo.agent Demo.tarball)
                   "/opt/java" ".zip" "jdks/11" "jdk-11.zip" "/"
                   (Demo.initial Demo.tarball) _ _)); reflexivity.
Defined.

(** ** Edges of the install flows *)

Section InstallEdges.
Context {A : Agent}.
Implicit Types s : State A.


(** X5.  Off macOS, and for every ending other than [.dmg] and [.pkg],
    [installJDK] is the extractor and nothing else: a disk image given to a
    Linux or Windows agent is handed to [unzipJavaDownload], and no command
    is executed. *)
Theorem installJDK_delegates_to_extractor
    sourceFile fileExtension destination ext ver s :
  platform A ≠ "darwin" ∨ (fileExtension ≠ ".dmg" ∧ fileExtension ≠ ".pkg") →
  installJDK sourceFile fileExtension destination ext ver s
    = unzipJavaDownload sourceFile fileExtension destination s
  ∧ execs (trace (installJDK sourceFile fileExtension destination ext ver s).2)
    = execs (trace s).
Proof.
  intros Hcase.
  assert (Heq : installJDK sourceFile fileExtension destination ext ver s
                = unzipJavaDownload sourceFile fileExtension destination s).
  { unfold installJDK.
    destruct (String.eqb_spec (platform A) "darwin") as [Hdarwin|_].
    - destruct Hcase as [Hcase|[Hdmg Hpkg]]; [contradiction|].
      apply String.eqb_neq in Hdmg, Hpkg. now rewrite Hdmg, Hpkg.
    - now rewrite !andb_false_r. }
  split; [exact Heq|]. rewrite Heq.
  unfold unzipJavaDownload, effect. now destruct (unzip_effect _ _ _ _ _).
Qed.

(** X6.  A disk image that cannot be attached is a hard failure: [installJDK]
    throws the error of [hdiutil attach], and that command is the only one
    executed. *)
Theorem installJDK_attach_failure sourceFile destination ext ver s before :
  platform A = "darwin" →
  readdir A VOLUMES_FOLDER (os s) = Some before →
  execSucceeded (spawn A (attachRunner A sourceFile (os s)) (os s)).1 = false →
  installJDK sourceFile ".dmg" destination ext ver s
    = (Thrown (ExecError (attachRunner A sourceFile (os s))
                 (spawn A (attachRunner A sourceFile (os s)) (os s)).1),
       afterAttach sourceFile s)
  ∧ execs (trace (afterAttach sourceFile s))
    = attachRunner A sourceFile (os s) :: execs (trace s).
Proof.
  intros Hplatform Hbefore Hfailed. split; [|apply execs_afterAttach].
  rewrite (installJDK_dmg _ _ _ _ _ _ Hplatform Hbefore).
  apply bind_thrown. rewrite attach_run. cbv zeta. now rewrite Hfailed.
Qed.

(** X7.  In the disk-image flow an error of [installPkg] ends [installJDK] at
    once, in the state [installPkg] left: [detach] is not attempted and the
    volume stays attached. *)
Theorem installJDK_install_failure_skips_detach
    sourceFile destination ext ver s before s1 s2 s3 volumePath pkgPath
    error s4 :
  platform A = "darwin" →
  readdir A VOLUMES_FOLDER (os s) = Some before →
  attach sourceFile s = (Returned tt, s1) →
  getVolumePath (snapshot before) s1 = (Returned volumePath, s2) →
  getPackagePath volumePath s2 = (Returned pkgPath, s3) →
  installPkg pkgPath ext ver s3 = (Thrown error, s4) →
  installJDK sourceFile ".dmg" destination ext ver s = (Thrown error, s4).
Proof.
  intros Hplatform Hbefore Hattach Hvolume Hpackage Hinstall.
  rewrite (installJDK_dmg _ _ _ _ _ _ Hplatform Hbefore).
  erewrite bind_returned by exact Hattach.
  erewrite bind_returned by exact Hvolume.
  erewrite bind_returned by exact Hpackage.
  now apply bind_thrown.
Qed.

End InstallEdges.

(** ** What a run adds to the trace *)

Section Emits.
Context {A : Agent} (P : Event → Prop).
Implicit Types s : State A.

Lemma emits_ret {T} (x : T) : emits P (ret (A:=A) x).
Proof. intros s r s' [= <- <-]. now exists []. Qed.

Lemma emits_throw {T} e : emits P (throw (A:=A) (T:=T) e).
Proof. intros s r s' [= <- <-]. now exists []. Qed.

Lemma emits_bind {T U} (m : M A T) (k : T → M A U) :
  emits P m → (∀ x, emits P (k x)) → emits P (bind m k).
Proof.
  intros Hm Hk s r s' [(x & s1 & H1 & H2)|(e & H1 & _)]%bind_inv.
  - destruct (Hm _ _ _ H1) as (new1 & E1 & F1).
    destruct (Hk _ _ _ _ H2) as (new2 & E2 & F2).
    exists (new2 ++ new1). split.
    + now rewrite E2, E1, app_assoc.
    + now apply Forall_app.
  - exact (Hm _ _ _ H1).
Qed.

Lemma emits_try_catch {T} (m : M A T) (h : Error → M A T) :
  emits P m → (∀ e, emits P (h e)) → emits P (try_catch m h).
Proof.
  intros Hm Hh s r s' [(x & H1 & _)|(e & s1 & H1 & H2)]%try_catch_inv.
  - exact (Hm _ _ _ H1).
  - destruct (Hm _ _ _ H1) as (new1 & E1 & F1).
    destruct (Hh _ _ _ _ H2) as (new2 & E2 & F2).
    exists (new2 ++ new1). split.
    + now rewrite E2, E1, app_assoc.
    + now apply Forall_app.
Qed.

Lemma emits_emit e : P e → emits P (emit (A:=A) e).
Proof. intros He s r s' [= <- <-]. exists [e]. split; [reflexivity|]. now constructor. Qed.

Lemma emits_effect {T} e (f : OS A → Outcome T * OS A) :
  P e → emits P (effect e f).
Proof.
  intros He s r s'. unfold effect. destruct (f (os s)) as [r' o].
  intros [= <- <-]. exists [e]. split; [reflexivity|]. now constructor.
Qed.

Lemma emits_observe {T} (f : OS A → T) : emits P (observe f).
Proof. intros s r s' [= <- <-]. now exists []. Qed.

Lemma emits_readdirSync dir : emits P (readdirSync (A:=A) dir).
Proof.
  intros s r s'. unfold readdirSync.
  destruct (readdir A dir (os s)); intros [= <- <-]; now exists [].
Qed.

Lemma emits_getVariable name : emits P (getVariable (A:=A) name).
Proof. intros s r s' [= <- <-]. now exists []. Qed.

Lemma emits_setVariable name val :
  P (SetVariable name val) → emits P (setVariable (A:=A) name val).
Proof.
  intros He s r s' [= <- <-]. exists [SetVariable name val].
  split; [reflexivity|]. now constructor.
Qed.

Lemma emits_getInputRequired name : emits P (getInputRequired (A:=A) name).
Proof.
  unfold getInputRequired. destruct (inputs A !! name) as [v|].
  - destruct (Js.truthy v); [apply emits_ret | apply emits_throw].
  - apply emits_throw.
Qed.

Lemma emits_pathJoin parts : emits P (pathJoin (A:=A) parts).
Proof.
  unfold pathJoin. destruct (mapM id parts); [apply emits_ret | apply emits_throw].
Qed.

Lemma emits_getSupportedFileEnding file :
  emits P (getSupportedFileEnding (A:=A) file).
Proof.
  intros s r s'. rewrite getSupportedFileEnding_run. intros [= <- <-].
  now exists [].
Qed.

Lemma emits_forEach items (body : string → M A unit) :
  (∀ item, emits P (body item)) → emits P (forEach items body).
Proof.
  intros Hbody. induction items as [|item rest IH]; simpl.
  - apply emits_ret.
  - apply emits_bind; [apply Hbody | intros _; exact IH].
Qed.

Lemma emits_getVolumePath volumes : emits P (getVolumePath (A:=A) volumes).
Proof.
  unfold getVolumePath. apply emits_bind; [apply emits_readdirSync|].
  intros entries. cbv zeta.
  destruct (negb _); [apply emits_throw | apply emits_pathJoin].
Qed.

Lemma emits_getPackagePath volumePath :
  emits P (getPackagePath (A:=A) volumePath).
Proof.
  unfold getPackagePath. apply emits_bind; [apply emits_readdirSync|].
  intros entries. cbv zeta. destruct (Nat.eqb _ 1); [apply emits_pathJoin|].
  destruct (Nat.eqb _ 0); apply emits_throw.
Qed.

End Emits.

Section TaskEvents.
Context {A : Agent}.
Implicit Types s : State A.
Hypothesis on_macos : platform A = "darwin".

Lemma taskEvent_attach sourceFile : emits (taskEvent A) (attach (A:=A) sourceFile).
Proof.
  intros s r s'. rewrite attach_run. intros [= _ <-].
  exists [Exec (attachRunner A sourceFile (os s)); Console "AttachDiskImage" []].
  split; [reflexivity|]. repeat constructor; [exact on_macos|].
  exists sourceFile, (os s). now left.
Qed.

Lemma taskEvent_detach volumePath : emits (taskEvent A) (detach (A:=A) volumePath).
Proof.
  intros s r s'. rewrite detach_run. intros [= _ <-].
  exists [Exec (detachRunner A volumePath (os s)); Console "DetachDiskImage" []].
  split; [reflexivity|]. repeat constructor; [exact on_macos|].
  exists volumePath, (os s). now right; right.
Qed.

Lemma taskEvent_runPkgInstaller pkgPath :
  emits (taskEvent A) (runPkgInstaller (A:=A) pkgPath).
Proof.
  intros s r s'. rewrite runPkgInstaller_run. intros [= _ <-].
  unfold afterInstaller. destruct (execSucceeded _).
  - exists [Exec (installerRunner A pkgPath (os s))].
    split; [reflexivity|]. repeat constructor; [exact on_macos|].
    exists pkgPath, (os s). now right; left.
  - exists [Debug "Failed to install pkg file";
            Exec (installerRunner A pkgPath (os s))].
    split; [reflexivity|]. repeat constructor; [exact on_macos|].
    exists pkgPath, (os s). now right; left.
Qed.

Lemma taskEvent_installPkg pkgPath ext ver :
  emits (taskEvent A) (installPkg (A:=A) pkgPath ext ver).
Proof.
  unfold installPkg, existsSync, console_log.
  apply emits_bind; [apply emits_observe|].
  intros found. destruct (negb found); [apply emits_throw|].
  apply emits_bind; [now apply emits_emit|]. intros _.
  apply emits_bind; [apply emits_readdirSync|]. intros before. cbv zeta.
  apply emits_bind; [apply taskEvent_runPkgInstaller|]. intros _.
  apply emits_bind; [apply emits_readdirSync|]. intros after.
  destruct (Nat.eqb _ 0).
  - apply emits_bind; [apply emits_getVariable|].
    intros [directory|]; [|apply emits_throw].
    apply emits_bind; [now apply emits_emit|]. intros _.
    apply emits_bind; [now apply emits_emit|]. intros _.
    apply emits_ret.
  - apply emits_bind; [now apply emits_emit|]. intros _.
    apply emits_pathJoin.
Qed.

End TaskEvents.

Section RunEvents.
Context {A : Agent}.
Implicit Types s : State A.

Lemma taskEvent_installJDK sourceFile fileExtension destination ext ver :
  emits (taskEvent A)
    (installJDK (A:=A) sourceFile fileExtension destination ext ver).
Proof.
  unfold installJDK, task_error, unzipJavaDownload.
  destruct (String.eqb fileExtension ".dmg" && _) eqn:Hdmg.
  - apply andb_prop in Hdmg as [_ Hmac%String.eqb_eq].
    apply emits_bind; [apply emits_readdirSync|]. intros before. cbv zeta.
    apply emits_bind; [now apply taskEvent_attach|]. intros _.
    apply emits_bind; [apply emits_getVolumePath|]. intros volumePath.
    apply emits_bind; [apply emits_getPackagePath|]. intros pkgPath.
    apply emits_bind; [now apply taskEvent_installPkg|]. intros jdkDirectory.
    apply emits_bind; [|intros _; apply emits_ret].
    apply emits_try_catch; [now apply taskEvent_detach|].
    intros e. now apply emits_emit.
  - destruct (String.eqb fileExtension ".pkg" && _) eqn:Hpkg.
    + apply andb_prop in Hpkg as [_ Hmac%String.eqb_eq].
      now apply taskEvent_installPkg.
    + now apply emits_effect.
Qed.

Lemma taskEvent_cleanDestination clean extractLocation :
  emits (taskEvent A) (cleanDestination (A:=A) clean extractLocation).
Proof.
  unfold cleanDestination, existsSync, console_log, rmRF.
  destruct clean; [|apply emits_ret].
  apply emits_bind; [apply emits_observe|]. intros [|]; [|apply emits_ret].
  apply emits_bind; [now apply emits_emit|]. intros _.
  apply emits_bind; [apply emits_readdirSync|]. intros items.
  apply emits_forEach. intros item. now apply emits_effect.
Qed.

Lemma taskEvent_getJava versionSpec :
  emits (taskEvent A) (getJava (A:=A) versionSpec).
Proof.
  unfold getJava, getBoolInput, getInputOptional, debug, console_log,
    downloadArtifacts, sleepFor, buildFilePath, prependPath.
  apply emits_bind; [apply emits_getInputRequired|]. intros source.
  apply emits_bind; [apply emits_getInputRequired|]. intros source'.
  apply emits_bind; [apply emits_getInputRequired|]. intros extractLocation.
  apply emits_bind.
  { apply emits_bind; [apply emits_ret | intros v; apply emits_ret]. }
  intros clean.
  apply emits_bind; [apply emits_getInputRequired|]. intros arch.
  apply emits_bind; [now apply emits_emit|]. intros _.
  apply emits_bind; [apply emits_observe|]. intros localVersions.
  apply emits_bind; [apply taskEvent_cleanDestination|]. intros _.
  apply emits_bind.
  - destruct (Js.truthy _).
    { apply emits_bind; [now apply emits_emit | intros _; apply emits_ret]. }
    destruct (String.eqb "PreInstalled" source).
    { apply emits_bind; [apply emits_getVariable|].
      intros [directory|]; [|apply emits_throw].
      apply emits_bind; [now apply emits_emit | intros _; apply emits_ret]. }
    destruct (String.eqb "AzureStorage" source').
    + apply emits_bind; [now apply emits_emit|]. intros _.
      apply emits_bind; [apply emits_ret|]. intros fileNameAndPath.
      apply emits_bind; [apply emits_getInputRequired|]. intros endpoint.
      apply emits_bind; [apply emits_getInputRequired|]. intros account.
      apply emits_bind; [apply emits_getInputRequired|]. intros container.
      apply emits_bind; [now apply emits_effect|]. intros _.
      apply emits_bind; [now apply emits_emit|]. intros _.
      destruct fileNameAndPath as [file|]; [|apply emits_throw].
      apply emits_bind; [apply emits_getSupportedFileEnding|]. intros ending.
      apply emits_bind; [apply emits_pathJoin|]. intros extractSource.
      apply emits_bind; [apply taskEvent_installJDK|].
      intros directory. apply emits_ret.
    + apply emits_bind; [now apply emits_emit|]. intros _.
      apply emits_bind; [apply emits_getInputRequired|]. intros jdkFile.
      apply emits_bind; [apply emits_getSupportedFileEnding|]. intros ending.
      apply emits_bind; [apply taskEvent_installJDK|].
      intros directory. apply emits_ret.
  - intros jdkDirectory.
    apply emits_bind; [now apply emits_emit|]. intros _.
    apply emits_bind; [now apply emits_emit|]. intros _.
    apply emits_bind; [now apply emits_setVariable|]. intros _.
    apply emits_bind; [now apply emits_setVariable|]. intros _.
    apply emits_bind; [apply emits_pathJoin|]. intros binDirectory.
    now apply emits_emit.
Qed.

Lemma execs_app (new t : list Event) : execs (new ++ t) = execs new ++ execs t.
Proof.
  induction new as [|e new IH]; [reflexivity|].
  destruct e; cbn [app execs]; now rewrite IH.
Qed.

Lemma toolPath_line val runner : toolPath (line val runner) = toolPath runner.
Proof. unfold line. now destruct (Js.truthy val). Qed.

Lemma orchestratorCommand_sudo runner :
  platform A = "darwin" → orchestratorCommand A runner →
  toolPath runner = "sudo".
Proof.
  intros Hmac (target & o & [-> | [-> | ->]]);
    unfold attachRunner, installerRunner, detachRunner, sudoRunner;
    rewrite Hmac, !toolPath_line;
    change (String.eqb "darwin" "win32") with false; cbv iota;
    now rewrite toolPath_line.
Qed.

Lemma taskEvent_execs (new : list Event) :
  Forall (taskEvent A) new →
  (platform A ≠ "darwin" → execs new = [])
  ∧ Forall (λ runner, toolPath runner = "sudo" ∧ orchestratorCommand A runner)
      (execs new).
Proof.
  induction 1 as [|e new He _ [IH1 IH2]]; [now split|].
  destruct e; cbn [execs]; try (split; assumption).
  destruct He as [Hmac Hcommand]. split; [intros Hne; contradiction|].
  constructor; [|exact IH2].
  split; [now apply orchestratorCommand_sudo | exact Hcommand].
Qed.

(** X8.  Whatever its inputs and however it ends, [getJava] executes nothing
    but the three command lines the file builds ([hdiutil attach],
    [installer -package], [hdiutil detach]), each of them through [sudo],
    and none at all on an agent that is not macOS. *)
Theorem getJava_runs_only_sudo_commands versionSpec s r s' :
  getJava versionSpec s = (r, s') →
  ∃ commands,
    execs (trace s') = commands ++ execs (trace s)
    ∧ (platform A ≠ "darwin" → commands = [])
    ∧ Forall (λ runner, toolPath runner = "sudo" ∧ orchestratorCommand A runner)
        commands.
Proof.
  intros Hrun. destruct (taskEvent_getJava _ _ _ _ Hrun) as (new & Hnew & Hall).
  exists (execs new). rewrite Hnew, execs_app.
  split; [reflexivity|]. now apply taskEvent_execs.
Qed.


End RunEvents.

Lemma getJava_runs_only_sudo_commands_witness :
  (∃ commands,
     execs (trace (getJava "11" (Demo.initial Demo.diskImage)).2)
     = commands ++ []
     ∧ (platform (Demo.agent Demo.diskImage) ≠ "darwin" → commands = [])
     ∧ Forall (λ runner, toolPath runner = "sudo"
                         ∧ orchestratorCommand (Demo.agent Demo.diskImage) runner)
         commands)
  ∧ execs (trace (getJava "11"
                    (Agents.initial Agents.linux Demo.initialWorld [])).2) = [].
Proof.
  split.
  - apply (getJava_runs_only_sudo_commands (A:=Demo.agent Demo.diskImage)
             "11" (Demo.initial Demo.diskImage)
             (getJava "11" (Demo.initial Demo.diskImage)).1).
    vm_compute. reflexivity.
  - destruct (getJava_runs_only_sudo_commands (A:=Agents.linux) "11"
                (Agents.initial Agents.linux Demo.initialWorld [])
                (getJava "11" (Agents.initial Agents.linux Demo.initialWorld [])).1
                (getJava "11" (Agents.initial Agents.linux Demo.initialWorld [])).2)
      as (commands & Heq & Hnone & _).
    + vm_compute. reflexivity.
    + rewrite Heq, Hnone; [reflexivity | discriminate].
Defined.

(** ** The inputs of [getJava] and the pre-installed source *)

Section Inputs.
Context {A : Agent}.
Implicit Types s : State A.

Lemma getInputRequired_run name s :
  getInputRequired name s =
  (if provided A name then Returned (default "" (inputs A !! name))
   else Thrown (InputRequired name), s).
Proof.
  unfold getInputRequired, provided.
  destruct (inputs A !! name) as [v|]; [|reflexivity].
  change (default "" (Some v)) with v.
  destruct (Js.truthy v); reflexivity.
Qed.

Lemma getInputRequired_some name v s :
  inputs A !! name = Some v → Js.truthy v = true →
  getInputRequired name s = (Returned v, s).
Proof. intros Hv Ht. unfold getInputRequired. now rewrite Hv, Ht. Qed.

Lemma getInputRequired_returned name v s s' :
  getInputRequired name s = (Returned v, s') → inputs A !! name = Some v.
Proof.
  unfold getInputRequired. destruct (inputs A !! name) as [w|]; [|discriminate].
  destruct (Js.truthy w); [|discriminate]. now intros [= <- _].
Qed.



End Inputs.



(** ** Cleaning the destination directory *)

Section Cleaning.
Context {A : Agent}.
Implicit Types s : State A.

Lemma forEach_rmRF destination items s :
  (∀ path o, (rmRF_effect A path o).1 = Returned tt) →
  ∃ s',
    forEach items (λ item, rmRF (Path.join [destination; item])) s
      = (Returned tt, s')
    ∧ removed (trace s')
      = rev (map (λ item, Path.join [destination; item]) items)
        ++ removed (trace s)
    ∧ vars s' = vars s.
Proof.
  intros Hrm. revert s. induction items as [|item rest IH]; intros s.
  - exists s. now split.
  - cbn [forEach]. unfold bind at 1, rmRF at 1, effect.
    specialize (Hrm (Path.join [destination; item]) (os s)).
    destruct (rmRF_effect A (Path.join [destination; item]) (os s))
      as [r o] eqn:E.
    cbn [fst] in Hrm. subst r.
    destruct (IH {| os := o; vars := vars s;
                    trace := RmRF (Path.join [destination; item]) :: trace s |})
      as (s' & Hrun & Hremoved & Hvars).
    exists s'. split; [exact Hrun|]. split; [|exact Hvars].
    rewrite Hremoved. cbn [trace removed map rev].
    now rewrite <- app_assoc.
Qed.

(** X12.  The destination directory is emptied only when the flag is set and the
    directory exists; then every entry of its listing, and nothing else, is
    handed to [rmRF], joined to the directory and in the order of the
    listing.  No command is executed and no variable is touched. *)
Theorem cleanDestination_removes_the_listing destination s :
  cleanDestination false destination s = (Returned tt, s)
  ∧ (pathExists A destination (os s) = false →
     cleanDestination true destination s = (Returned tt, s))
  ∧ (pathExists A destination (os s) = true →
     readdir A destination (os s) = None →
     cleanDestination true destination s
     = (Thrown (FsError destination),
        logged [Console "CleanDestDir" [destination]] s))
  ∧ (∀ items,
       (∀ path o, (rmRF_effect A path o).1 = Returned tt) →
       pathExists A destination (os s) = true →
       readdir A destination (os s) = Some items →
       ∃ s',
         cleanDestination true destination s = (Returned tt, s')
         ∧ removed (trace s')
           = rev (map (λ item, Path.join [destination; item]) items)
             ++ removed (trace s)
         ∧ execs (trace s') = execs (trace s)
         ∧ vars s' = vars s).
Proof.
  split; [reflexivity|]. split; [|split].
  - intros Hmissing. unfold cleanDestination.
    erewrite bind_returned
      by (unfold existsSync, observe; rewrite Hmissing; reflexivity).
    reflexivity.
  - intros Hexists Hnone. unfold cleanDestination.
    erewrite bind_returned
      by (unfold existsSync, observe; rewrite Hexists; reflexivity).
    cbv beta iota.
    erewrite bind_returned by reflexivity.
    apply bind_thrown. now apply readdirSync_none.
  - intros items Hrm Hexists Hitems.
    destruct (forEach_rmRF destination items
                (logged [Console "CleanDestDir" [destination]] s) Hrm)
      as (s' & Hrun & Hremoved & Hvars).
    assert (Heq : cleanDestination true destination s = (Returned tt, s')).
    { unfold cleanDestination.
      erewrite bind_returned
        by (unfold existsSync, observe; rewrite Hexists; reflexivity).
      cbv beta iota.
      erewrite bind_returned by reflexivity.
      erewrite bind_returned by (apply readdirSync_some; exact Hitems).
      exact Hrun. }
    exists s'. split; [exact Heq|]. split; [exact Hremoved|].
    split; [|exact Hvars].
    exact (preserves_cleanDestination execs execs_passive _ _ _ _ _ Heq).
Qed.

End Cleaning.

Lemma cleanDestination_removes_the_listing_witness :
  let s := Agents.initial Agents.preInstalled Demo.initialWorld [] in
  ∃ s',
    cleanDestination true "/opt/java" s = (Returned tt, s')
    ∧ removed (trace s')
      = rev (map (λ item, Path.join ["/opt/java"; item]) ["old-jdk"; "notes.txt"])
        ++ removed (trace s)
    ∧ execs (trace s') = execs (trace s)
    ∧ vars s' = vars s.
Proof.
  intros s.
  refine (proj2 (proj2 (proj2 (cleanDestination_removes_the_listing
                                 (A:=Agents.preInstalled) "/opt/java" s)))
            ["old-jdk"; "notes.txt"] _ _ _).
  - intros path o. reflexivity.
  - reflexivity.
  - reflexivity.
Defined.

(** ** What a successful [getJava] leaves behind *)

Section Published.
Context {A : Agent}.
Implicit Types s : State A.

Lemma extendedJavaHomeName_fresh versionSpec arch :
  extendedJavaHomeName versionSpec arch ≠ "JAVA_HOME".
Proof.
  unfold extendedJavaHomeName. intros H.
  apply (f_equal String.length) in H. rewrite length_append in H.
  cbn in H. lia.
Qed.

(** X13.  On every branch but the tool-cache one, when [getJava] returns, the
    variables [JAVA_HOME] and [JAVA_HOME_<version>_<arch>] both hold one
    and the same directory, with [arch] the architecture input, and the
    last thing done was to prepend that directory's [bin] folder to the
    path. *)
Theorem getJava_returns_published versionSpec s s' :
  Js.truthy (evaluateVersions A (localToolVersions A "Java" (os s)) versionSpec)
    = false →
  getJava versionSpec s = (Returned tt, s') →
  ∃ arch directory,
    inputs A !! "jdkArchitectureOption" = Some arch
    ∧ vars s' !! "JAVA_HOME" = Some directory
    ∧ vars s' !! extendedJavaHomeName versionSpec arch = Some directory
    ∧ head (trace s')
      = Some (PrependPath (Path.join [directory; BIN_FOLDER A])).
Proof.
  intros Hcache. unfold getJava.
  intros [(source & s1 & H1 & H)|(e & _ & [=])]%bind_inv.
  apply getInputRequired_inv in H1 as ->. revert H.
  intros [(source' & s1 & H1 & H)|(e & _ & [=])]%bind_inv.
  apply getInputRequired_inv in H1 as ->. revert H.
  intros [(extractLocation & s1 & H1 & H)|(e & _ & [=])]%bind_inv.
  apply getInputRequired_inv in H1 as ->. revert H.
  intros [(clean & s1 & H1 & H)|(e & _ & [=])]%bind_inv.
  injection H1 as _ <-. revert H.
  intros [(arch & s1 & H1 & H)|(e & _ & [=])]%bind_inv.
  assert (Harch := getInputRequired_returned _ _ _ _ H1).
  apply getInputRequired_inv in H1 as ->. revert H.
  intros [(u & s1 & H1 & H)|(e & _ & [=])]%bind_inv.
  injection H1 as _ <-. revert H.
  intros [(localVersions & s1 & H1 & H)|(e & _ & [=])]%bind_inv.
  injection H1 as <- <-. cbn [os] in H. rewrite Hcache in H. revert H.
  intros [(u' & s2 & H2 & H)|(e & _ & [=])]%bind_inv.
  match type of H with
  | bind ?branch _ _ = _ => assert (Hsome : resolving branch)
  end.
  { destruct (String.eqb "PreInstalled" source).
    { apply resolving_bind. intros [directory|]; [|apply resolving_throw].
      apply resolving_bind. intros _. apply resolving_ret. }
    destruct (String.eqb "AzureStorage" source').
    - do 7 (apply resolving_bind; intros ?).
      match goal with
      | |- resolving (match ?f with _ => _ end) =>
          destruct f; [|apply resolving_throw]
      end.
      do 3 (apply resolving_bind; intros ?). apply resolving_ret.
    - do 4 (apply resolving_bind; intros ?). apply resolving_ret. }
  revert H.
  intros [(jdkDirectory & s3 & H3 & H)|(e & _ & [=])]%bind_inv.
  destruct (Hsome _ _ _ H3) as [directory ->].
  injection H as <-. exists arch, directory.
  split; [exact Harch|]. cbn [vars trace head].
  split; [|split; [|reflexivity]].
  - rewrite lookup_insert_ne by apply extendedJavaHomeName_fresh.
    apply lookup_insert_eq.
  - apply lookup_insert_eq.
Qed.

End Published.

Lemma getJava_returns_published_witness :
  ∃ arch directory,
    inputs (Demo.agent Demo.diskImage) !! "jdkArchitectureOption" = Some arch
    ∧ vars (getJava "11" (Demo.initial Demo.diskImage)).2 !! "JAVA_HOME"
      = Some directory
    ∧ vars (getJava "11" (Demo.initial Demo.diskImage)).2
        !! extendedJavaHomeName "11" arch = Some directory
    ∧ head (trace (getJava "11" (Demo.initial Demo.diskImage)).2)
      = Some (PrependPath
                (Path.join [directory; BIN_FOLDER (Demo.agent Demo.diskImage)])).
Proof.
  apply (getJava_returns_published (A:=Demo.agent Demo.diskImage) "11"
           (Demo.initial Demo.diskImage)).
  - vm_compute. reflexivity.
  - vm_compute. reflexivity.
Defined.

(** ** The earlier package install and the current one *)

Section EarlierInstall.
Context {A : Agent}.
Implicit Types s : State A.

(** X14.  Wherever the earlier [installPkg] resolved a JDK home, the current one,
    given a package that exists, resolves the same directory after the same
    single run of the installer; it differs only where the earlier one
    threw. *)
Theorem installPkg_agrees_with_earlier pkgPath ext ver s directory s' :
  pathExists A pkgPath (os s) = true →
  Earlier.installPkg pkgPath s = (Returned directory, s') →
  installPkg pkgPath ext ver s
  = (Returned directory, logged [Console "JavaSuccessfullyInstalled" []] s').
Proof.
  intros Hexists. unfold Earlier.installPkg, console_log.
  intros [(u & s1 & H1 & H)|(e & _ & [=])]%bind_inv.
  injection H1 as _ <-. revert H.
  intros [(before & s1 & H1 & H)|(e & _ & [=])]%bind_inv.
  unfold readdirSync in H1. cbn [os] in H1.
  destruct (readdir A JDK_FOLDER (os s)) as [before'|] eqn:Hbefore;
    [|discriminate].
  injection H1 as -> <-. revert H.
  intros [(u' & s2 & H2 & H)|(e & _ & [=])]%bind_inv.
  rewrite runPkgInstaller_run in H2. injection H2 as _ <-. revert H.
  intros [(after & s3 & H3 & H)|(e & _ & [=])]%bind_inv.
  unfold readdirSync in H3.
  destruct (readdir A JDK_FOLDER (os (afterInstaller pkgPath _)))
    as [after'|] eqn:Hafter; [|discriminate].
  injection H3 as -> <-. cbv zeta in H.
  rewrite os_afterInstaller in Hafter. cbn [os] in Hafter.
  rewrite (installPkg_run _ _ _ _ _ _ Hexists Hbefore Hafter). cbv zeta.
  fold (dirDiff before after) in H.
  destruct (dirDiff before after) as [|first [|second others]];
    cbn [List.length Nat.eqb negb] in H; try discriminate.
  unfold afterInstall. now injection H as <- <-.
Qed.

End EarlierInstall.

Lemma installPkg_agrees_with_earlier_witness :
  let s := Demo.initial Demo.onePackage in
  (installPkg "/downloads/jdk-11.pkg" "JAVA_HOME_11_x64" "11" s).1
  = (Earlier.installPkg "/downloads/jdk-11.pkg" s).1.
Proof.
  intros s.
  rewrite (installPkg_agrees_with_earlier (A:=Demo.agent Demo.onePackage)
             "/downloads/jdk-11.pkg" "JAVA_HOME_11_x64" "11" s
             "/Library/Java/JavaVirtualMachines/jdk-11.jdk/Contents/Home"
             (Earlier.installPkg "/downloads/jdk-11.pkg" s).2).
  - vm_compute. reflexivity.
  - reflexivity.
  - vm_compute. reflexivity.
Defined.

(** ** The volume of an attached disk image *)

Section NewVolume.
Context {A : Agent}.
Implicit Types s : State A.

(** X15.  When [getVolumePath] returns, it has changed nothing, and the path is
    the volumes root joined with the one listed entry that was not in the
    snapshot taken before: every other entry of the listing was there. *)
Theorem getVolumePath_returns_the_new_volume volumes s volumePath s' :
  getVolumePath volumes s = (Returned volumePath, s') →
  s' = s
  ∧ (∃ volume listing,
       readdir A VOLUMES_FOLDER (os s) = Some listing
       ∧ volumePath = Path.join [VOLUMES_FOLDER; volume]
       ∧ volume ∈ listing ∧ (volume ∉ volumes)
       ∧ (∀ other, other ∈ listing → other ∉ volumes → other = volume)).
Proof.
  destruct (readdir A VOLUMES_FOLDER (os s)) as [listing|] eqn:Hlisting.
  - rewrite (getVolumePath_run _ _ _ Hlisting).
    destruct (newEntries volumes listing) as [|volume [|second others]] eqn:Hnew;
      try discriminate.
    intros [= <- <-]. split; [reflexivity|]. exists volume, listing.
    assert (Hin : ∀ x, x ∈ listing ∧ x ∉ volumes ↔ x = volume).
    { intros x. rewrite <- elem_of_newEntries, Hnew. apply list_elem_of_singleton. }
    split; [reflexivity|]. split; [reflexivity|].
    destruct (proj2 (Hin volume) eq_refl) as [H1 H2].
    split; [exact H1|]. split; [exact H2|].
    intros other Ho1 Ho2. now apply Hin.
  - unfold getVolumePath.
    erewrite bind_thrown by (apply readdirSync_none; exact Hlisting).
    discriminate.
Qed.

End NewVolume.

Lemma getVolumePath_returns_the_new_volume_witness :
  let s := afterAttach "/downloads/jdk-11.dmg" (Demo.initial Demo.diskImage) in
  ∃ volume listing,
    readdir (Demo.agent Demo.diskImage) VOLUMES_FOLDER (os s) = Some listing
    ∧ "/Volumes/JDK 11" = Path.join [VOLUMES_FOLDER; volume]
    ∧ volume ∈ listing ∧ (volume ∉ snapshot ["Macintosh HD"])
    ∧ (∀ other, other ∈ listing → other ∉ snapshot ["Macintosh HD"] →
                other = volume).
Proof.
  intros s.
  refine (proj2 (getVolumePath_returns_the_new_volume
                   (A:=Demo.agent Demo.diskImage)
                   (snapshot ["Macintosh HD"]) s "/Volumes/JDK 11" s _)).
  vm_compute. reflexivity.
Defined.

(** ** The Azure source *)

Section Azure.
Context {A : Agent}.
Implicit Types s : State A.

(** X16.  With the Azure source the file name is classified only after the
    download: a blob name with no supported ending (or no blob name at all,
    which asks for the pattern [*undefined]) is first fetched into the
    destination directory, and only then does [getJava] throw; the local
    source, by contrast, classifies before it touches anything. *)
Theorem getJava_azure_classifies_after_download versionSpec s file s2 :
  inputs A !! "jdkSourceOption" = Some "AzureStorage" →
  Forall (λ name, provided A name = true)
    ["jdkDestinationDirectory"; "jdkArchitectureOption";
     "azureResourceManagerEndpoint"; "azureStorageAccountName";
     "azureContainerName"] →
  inputs A !! "azureCommonVirtualFile" = file →
  Js.truthy (evaluateVersions A (localToolVersions A "Java" (os s)) versionSpec)
    = false →
  cleanDestination (cleanRequested A) (inputValue A "jdkDestinationDirectory")
    (started s) = (Returned tt, s2) →
  (download_effect A
     (inputValue A "azureResourceManagerEndpoint")
     (inputValue A "azureStorageAccountName")
     (inputValue A "azureContainerName")
     (inputValue A "jdkDestinationDirectory")
     ("*" +:+ Js.show file) (os s2)).1 = Returned tt →
  match file with
  | None => True
  | Some name => Forall (λ e, Js.endsWith name e = false) supportedFileEndings
  end →
  getJava versionSpec s
  = (Thrown match file with
            | None => TypeError "endsWith"
            | Some _ => unsupportedFileExtension
            end,
     downloaded ("*" +:+ Js.show file) s2).
Proof.
  intros Hsource Hprovided Hfile Hcache Hclean Hdownload Hending.
  repeat match goal with
         | H : Forall _ (_ :: _) |- _ =>
             let Hhead := fresh "Hinput" in
             apply Forall_cons in H as [Hhead H]
         end.
  unfold getJava.
  erewrite bind_returned
    by (apply (getInputRequired_some _ _ _ Hsource); reflexivity).
  erewrite bind_returned
    by (apply (getInputRequired_some _ _ _ Hsource); reflexivity).
  erewrite bind_returned by (rewrite getInputRequired_run, Hinput; reflexivity).
  erewrite bind_returned by reflexivity.
  erewrite bind_returned by (rewrite getInputRequired_run, Hinput0; reflexivity).
  erewrite bind_returned by reflexivity.
  erewrite bind_returned by reflexivity.
  cbn [os]. rewrite Hcache.
  erewrite bind_returned by exact Hclean.
  cbn [String.eqb Ascii.eqb Bool.eqb].
  apply bind_thrown.
  erewrite bind_returned by reflexivity.
  erewrite bind_returned by reflexivity.
  erewrite bind_returned by (rewrite getInputRequired_run, Hinput1; reflexivity).
  erewrite bind_returned by (rewrite getInputRequired_run, Hinput2; reflexivity).
  erewrite bind_returned by (rewrite getInputRequired_run, Hinput3; reflexivity).
  rewrite Hfile. fold (inputValue A "jdkDestinationDirectory").
  fold (inputValue A "azureResourceManagerEndpoint").
  fold (inputValue A "azureStorageAccountName").
  fold (inputValue A "azureContainerName").
  unfold bind at 1, downloadArtifacts at 1, effect. cbn [os].
  destruct (download_effect A _ _ _ _ _ (os s2)) as [r o] eqn:E.
  cbn [fst] in Hdownload. subst r.
  unfold downloaded. rewrite E. cbn [snd].
  erewrite bind_returned by reflexivity.
  destruct file as [name|]; [|reflexivity].
  apply bind_thrown. rewrite getSupportedFileEnding_run.
  assert (Hfind : List.find (λ ending, Js.endsWith name ending)
                    supportedFileEndings = None)
    by (now apply find_nothing).
  unfold logged. now rewrite Hfind.
Qed.

End Azure.

Lemma getJava_azure_classifies_after_download_witness :
  let s := Agents.initial Agents.azure Demo.initialWorld [] in
  getJava "11" s
  = (Thrown unsupportedFileExtension,
     downloaded ("*" +:+ "java/jdk-11.exe") (started s)).
Proof.
  intros s.
  apply (getJava_azure_classifies_after_download (A:=Agents.azure) "11" s
           (Some "java/jdk-11.exe") (started s)).
  - reflexivity.
  - vm_compute. repeat constructor.
  - reflexivity.
  - vm_compute. reflexivity.
  - vm_compute. reflexivity.
  - reflexivity.
  - vm_compute. repeat constructor.
Defined.

(** ** The edges of the install flows, run *)


Lemma installJDK_delegates_to_extractor_witness :
  let s := Agents.initial Agents.linux Demo.initialWorld [] in
  installJDK "/downloads/jdk-11.dmg" ".dmg" "/opt/java" "JAVA_HOME_11_x64" "11" s
  = unzipJavaDownload "/downloads/jdk-11.dmg" ".dmg" "/opt/java" s.
Proof.
  intros s.
  refine (proj1 (installJDK_delegates_to_extractor (A:=Agents.linux)
                   "/downloads/jdk-11.dmg" ".dmg" "/opt/java"
                   "JAVA_HOME_11_x64" "11" s _)).
  left. vm_compute. discriminate.
Defined.

Lemma installJDK_attach_failure_witness :
  let A := Demo.agent Agents.attachFailsScenario in
  let s := Demo.initial Agents.attachFailsScenario in
  installJDK "/downloads/jdk-11.dmg" ".dmg" "/opt/java" "JAVA_HOME_11_x64" "11" s
  = (Thrown (ExecError (attachRunner A "/downloads/jdk-11.dmg" (os s)) (Exited 1)),
     afterAttach "/downloads/jdk-11.dmg" s).
Proof.
  intros A s.
  refine (proj1 (installJDK_attach_failure (A:=A)
                   "/downloads/jdk-11.dmg" "/opt/java" "JAVA_HOME_11_x64" "11" s
                   ["Macintosh HD"] _ _ _)).
  - reflexivity.
  - reflexivity.
  - reflexivity.
Defined.

Lemma installJDK_install_failure_skips_detach_witness :
  let A := Demo.agent Agents.installFailsScenario in
  let s := Demo.initial Agents.installFailsScenario in
  let s1 := afterAttach "/downloads/jdk-11.dmg" s in
  installJDK "/downloads/jdk-11.dmg" ".dmg" "/opt/java" "JAVA_HOME_11_x64" "11" s
  = (Thrown (LocError "JavaNotPreinstalled" ["11"]),
     (installPkg "/Volumes/JDK 11/JDK 11.pkg" "JAVA_HOME_11_x64" "11" s1).2)
  ∧ execs (trace (installJDK "/downloads/jdk-11.dmg" ".dmg" "/opt/java"
                    "JAVA_HOME_11_x64" "11" s).2)
    = [installerRunner A "/Volumes/JDK 11/JDK 11.pkg" (os s1);
       attachRunner A "/downloads/jdk-11.dmg" (os s)].
Proof.
  intros A s s1.
  assert (Hrun := installJDK_install_failure_skips_detach (A:=A)
            "/downloads/jdk-11.dmg" "/opt/java" "JAVA_HOME_11_x64" "11" s
            ["Macintosh HD"] s1 s1 s1 "/Volumes/JDK 11"
            "/Volumes/JDK 11/JDK 11.pkg"
            (LocError "JavaNotPreinstalled" ["11"])
            (installPkg "/Volumes/JDK 11/JDK 11.pkg" "JAVA_HOME_11_x64" "11" s1).2).
  split.
  - apply Hrun.
    + reflexivity.
    + reflexivity.
    + vm_compute. reflexivity.
    + vm_compute. reflexivity.
    + vm_compute. reflexivity.
    + vm_compute. reflexivity.
  - vm_compute. reflexivity.
Defined.
